(** * Document QA system: chunk enrichment, vector store manager, RAG chain

    A shallow embedding of the Python sources
      - [src/document_qa_system/text_processor.py]  (class [TextProcessor])
      - [src/document_qa_system/vectorstore.py]     (class [VectorStoreManager])
      - [src/document_qa_system/rag_chain.py]       (class [RAGChain])
      - [src/document_qa_system/document_loader.py] (class [DocumentLoader])
    together with the properties stated about them.

    Conventions of the embedding.
      - A Python [str] is a [string]; every character is read as the code
        point of the same number (U+0000 .. U+00FF), and the character
        classes [isspace] and [islower] are Python's on that range.
      - A Python [dict] with string keys is a [gmap string _], a [set] a
        [gset].
      - A Python [float] is a binary64 number of [SpecFloat]; the arithmetic
        is the correctly rounded one, comparisons of an [int] with a [float]
        are exact, as in CPython.
      - A call that may raise returns an [outcome]: [Ok] with the value or
        [Raise] with the exception.  Calls to the collaborators (vector
        store, retriever, language model) also thread the state of the
        outside world and are recorded in a trace of events. *)

From Stdlib Require Import ZArith String Ascii List Lia Bool.
From Stdlib Require Import Floats.SpecFloat.
From stdpp Require Import base option list strings gmap pretty.

Local Open Scope string_scope.
Local Open Scope list_scope.
Local Open Scope Z_scope.

(** ** Python strings *)

Module PyStr.

(** [c.isspace()] for a code point below 256. *)
Definition isspace (c : ascii) : bool :=
  let n := nat_of_ascii c in
  ((9 <=? n) && (n <=? 13) || (28 <=? n) && (n <=? 32)
   || (n =? 133) || (n =? 160))%nat.

(** [c.islower()] for a code point below 256: the letters a-z, the
    ordinal indicators, the micro sign, and the Latin-1 small letters. *)
Definition islower (c : ascii) : bool :=
  let n := nat_of_ascii c in
  ((97 <=? n) && (n <=? 122) || (n =? 170) || (n =? 181) || (n =? 186)
   || (223 <=? n) && (n <=? 246) || (248 <=? n) && (n <=? 255))%nat.

(** [len(s)] *)
Definition len (s : string) : Z := Z.of_nat (String.length s).

(** [s.strip()] is empty exactly when every character is white space. *)
Fixpoint all_space (s : string) : bool :=
  match s with
  | EmptyString => true
  | String c s' => isspace c && all_space s'
  end.

Fixpoint lstrip (s : string) : string :=
  match s with
  | EmptyString => EmptyString
  | String c s' => if isspace c then lstrip s' else s
  end.

Definition rstrip (s : string) : string :=
  String.rev (lstrip (String.rev s)).

(** [s.strip()] *)
Definition strip (s : string) : string := rstrip (lstrip s).

(** Truth value of a string: [bool(s)]. *)
Definition truthy (s : string) : bool :=
  match s with EmptyString => false | _ => true end.

(** [s.split()]: the maximal runs of characters that are not white
    space, in order.  [cur] holds the run being read, reversed. *)
Fixpoint split_go (cur : string) (s : string) : list string :=
  match s with
  | EmptyString =>
      match cur with EmptyString => [] | _ => [String.rev cur] end
  | String c s' =>
      if isspace c then
        match cur with
        | EmptyString => split_go EmptyString s'
        | _ => String.rev cur :: split_go EmptyString s'
        end
      else split_go (String c cur) s'
  end.

Definition split (s : string) : list string := split_go EmptyString s.

(** [s[:n]] for [n >= 0]. *)
Fixpoint slice_to (n : nat) (s : string) : string :=
  match n, s with
  | S k, String c s' => String c (slice_to k s')
  | _, _ => EmptyString
  end.

(** [s.replace(a, b)] for one-character [a] and [b]. *)
Fixpoint replace_char (a b : ascii) (s : string) : string :=
  match s with
  | EmptyString => EmptyString
  | String c s' =>
      String (if Ascii.eqb c a then b else c) (replace_char a b s')
  end.

Definition newline : ascii := ascii_of_nat 10.
Definition space : ascii := ascii_of_nat 32.
Definition nl : string := String newline EmptyString.

(** [sep.join(parts)] *)
Fixpoint join (sep : string) (parts : list string) : string :=
  match parts with
  | [] => EmptyString
  | [p] => p
  | p :: rest => p +:+ sep +:+ join sep rest
  end.

End PyStr.

(** ** Python floats (binary64) *)

Module PyFloat.

Definition prec : Z := 53.
Definition emax : Z := 1024.

Abbreviation float := spec_float.

(** [float(n)] for an integer [n]: the nearest binary64 number. *)
Definition of_int (n : Z) : float := binary_normalize prec emax n 0 false.

Definition mul : float -> float -> float := SFmul prec emax.
Definition div : float -> float -> float := SFdiv prec emax.

(** The literals of the source, as the binary64 numbers they denote. *)
Definition lit_0_3 : float := S754_finite false 5404319552844595 (-54).
Definition lit_1_5 : float := S754_finite false 6755399441055744 (-52).
Definition lit_0_1 : float := S754_finite false 7205759403792794 (-56).
Definition lit_0_15 : float := S754_finite false 5404319552844595 (-55).

(** [int(x)]: truncation toward zero.  On an infinity or a NaN Python
    raises; such a float needs an integer operand of more than a thousand
    bits, which no length or count is, and the model returns [0] there. *)
Definition to_int (x : float) : Z :=
  match x with
  | S754_finite s m e =>
      let a := if (0 <=? e) then Z.pos m * 2 ^ e else Z.pos m / 2 ^ (- e) in
      if s then - a else a
  | _ => 0
  end.

(** The exact order between an integer and a float: [compare_int n x]
    is the comparison of [n] with [x]; [None] when [x] is a NaN. *)
Definition compare_int (n : Z) (x : float) : option comparison :=
  match x with
  | S754_zero _ => Some (n ?= 0)
  | S754_infinity s => Some (if s then Gt else Lt)
  | S754_nan => None
  | S754_finite s m e =>
      let v := if s then Z.neg m else Z.pos m in
      Some (if (0 <=? e) then n ?= v * 2 ^ e else n * 2 ^ (- e) ?= v)
  end.

(** [n < x] and [n > x] for an integer [n] and a float [x]. *)
Definition int_lt (n : Z) (x : float) : bool :=
  match compare_int n x with Some Lt => true | _ => false end.
Definition int_gt (n : Z) (x : float) : bool :=
  match compare_int n x with Some Gt => true | _ => false end.

End PyFloat.


(** ** Exceptions *)

(** A raised exception is identified with its message, [str(e)]. *)
Definition exn : Type := string.

Inductive outcome (A : Type) : Type :=
| Ok (a : A)
| Raise (e : exn).
Arguments Ok {A} a.
Arguments Raise {A} e.

Module Exc.

Definition bind {A B} (m : outcome A) (k : A -> outcome B) : outcome B :=
  match m with
  | Ok a => k a
  | Raise e => Raise e
  end.

(** [int / int]: true division, correctly rounded to binary64; the
    operands are lengths and counts, which binary64 holds exactly. *)
Definition truediv (a b : Z) : outcome PyFloat.float :=
  if b =? 0 then Raise "division by zero"
  else Ok (PyFloat.div (PyFloat.of_int a) (PyFloat.of_int b)).

(** [min(l)] and [max(l)] of a list of integers. *)
Definition py_min (l : list Z) : outcome Z :=
  match l with
  | [] => Raise "min() arg is an empty sequence"
  | x :: l' => Ok (fold_left Z.min l' x)
  end.

Definition py_max (l : list Z) : outcome Z :=
  match l with
  | [] => Raise "max() arg is an empty sequence"
  | x :: l' => Ok (fold_left Z.max l' x)
  end.

(** [sum(l)] *)
Definition py_sum (l : list Z) : Z := fold_left Z.add l 0.

End Exc.

Global Instance outcome_ret : MRet outcome := fun A a => Ok a.
Global Instance outcome_bind : MBind outcome := fun A B k m => Exc.bind m k.

(** ** Documents *)

(** The values held by document metadata: the loader stores file names,
    paths and time stamps as strings and positions as integers; the
    processor adds integers and a string. *)
Inductive value : Type :=
| VInt (n : Z)
| VStr (s : string).

(** [str(v)], as an f-string renders a value. *)
Definition py_str (v : value) : string :=
  match v with
  | VInt n => pretty n
  | VStr s => s
  end.

(** [langchain_core.documents.Document]: text and a metadata dict. *)
Record Document : Type := mkDocument {
  page_content : string;
  metadata : gmap string value
}.

(** ** [config.py] *)

Module Config.
Definition CHUNK_SIZE : Z := 1000.
Definition CHUNK_OVERLAP : Z := 200.
End Config.

(** ** The text splitter *)

(** [TextProcessor] builds a [RecursiveCharacterTextSplitter] of the
    package [langchain_text_splitters] and calls its [split_documents].
    The code of that package is not part of the sources; every definition
    of this module is modelled from the design document (section 4.1),
    which describes a recursive hierarchical split: the text is cut at the
    first separator of a priority list; a piece that still exceeds
    [chunk_size] is cut again with the next separators, the empty
    separator cutting between any two characters; adjacent pieces below
    the threshold are merged back up to [chunk_size], and a bounded tail of
    each emitted chunk, at most [chunk_overlap] characters, opens the next
    one.  A document without content yields no chunk. *)
Module Splitter.

Section Split.
Variables (chunk_size chunk_overlap : Z).

(** Modelled from the spec: the cut of a text at a separator, missing
    with the splitter.  The pieces of [s] between the occurrences of a
    non-empty [sep]; [skip] counts the characters of a separator still to
    be passed and [cur] is the piece being read, reversed. *)
Fixpoint split_on_go (sep : string) (skip : nat) (cur s : string)
  : list string :=
  match s with
  | EmptyString => [String.rev cur]
  | String c s' =>
      match skip with
      | S k => split_on_go sep k cur s'
      | O =>
          if String.prefix sep s
          then String.rev cur
                 :: split_on_go sep (String.length sep - 1) EmptyString s'
          else split_on_go sep 0 (String c cur) s'
      end
  end.

(** Modelled from the spec: the cut at the empty separator, missing with
    the splitter: one piece per character. *)
Definition chars (s : string) : list string :=
  map (fun c => String c EmptyString) (list_ascii_of_string s).

(** Modelled from the spec: the pieces of a split, missing with the
    splitter: the non-empty pieces of [text] at [sep]. *)
Definition pieces (sep text : string) : list string :=
  List.filter PyStr.truthy
    (match sep with
     | EmptyString => chars text
     | _ => split_on_go sep 0 EmptyString text
     end).

(** Modelled from the spec: the length of merged pieces, missing with
    the splitter; the pieces are joined by the separator they were cut
    at, so that a chunk is a substring of the content. *)
Definition joined_len (sep : string) (w : list string) : Z :=
  PyStr.len (PyStr.join sep w).

(** Modelled from the spec: the overlap between adjacent chunks, missing
    with the splitter.  The tail of the window [w] kept as overlap before
    [next] is added: leading pieces go while the rest is longer than
    [chunk_overlap] or leaves no room for [next]. *)
Fixpoint trim (sep next : string) (w : list string) : list string :=
  match w with
  | [] => []
  | _ :: w' =>
      if (chunk_overlap <? joined_len sep w)
         || (chunk_size <? joined_len sep (w ++ [next]))
      then trim sep next w'
      else w
  end.

(** Modelled from the spec: the merge of adjacent small pieces up to
    [chunk_size], missing with the splitter; [w] is the window of pieces
    of the chunk being built. *)
Fixpoint merge_go (sep : string) (w ps : list string) : list string :=
  match ps with
  | [] => match w with [] => [] | _ => [PyStr.join sep w] end
  | p :: ps' =>
      match w with
      | _ :: _ =>
          if chunk_size <? joined_len sep (w ++ [p])
          then PyStr.join sep w :: merge_go sep (trim sep p w ++ [p]) ps'
          else merge_go sep (w ++ [p]) ps'
      | [] => merge_go sep [p] ps'
      end
  end.

(** Modelled from the spec: the merge of a run of small pieces, missing
    with the splitter. *)
Definition merge (sep : string) (ps : list string) : list string :=
  merge_go sep [] ps.

(** Modelled from the spec: [RecursiveCharacterTextSplitter.split_text],
    missing from the sources: the recursive split of one text along the
    list of separators.  A piece longer than [chunk_size] is split with
    the separators that follow; the runs of the other pieces are merged. *)
Fixpoint split_text (separators : list string) (text : string)
  : list string :=
  match separators with
  | [] => match text with EmptyString => [] | _ => [text] end
  | sep :: rest =>
      (fix walk (good ps : list string) : list string :=
         match ps with
         | [] => merge sep good
         | p :: ps' =>
             if chunk_size <? PyStr.len p
             then merge sep good ++ split_text rest p ++ walk [] ps'
             else walk (good ++ [p]) ps'
         end) [] (pieces sep text)
  end.

(** Modelled from the spec: [RecursiveCharacterTextSplitter
    .split_documents], missing from the sources: every chunk is a new
    document that carries a copy of the metadata of the document it comes
    from, the chunks of a document following those of the documents
    before it. *)
Definition split_documents (separators : list string)
    (documents : list Document) : list Document :=
  flat_map
    (fun d => map (fun t => mkDocument t (metadata d))
                (split_text separators (page_content d)))
    documents.
End Split.

End Splitter.

(** ** [text_processor.py] *)

Module TextProcessor.

(** The instance: the sizes, the separators and the splitter built from
    them.  [splitter] stands for [self.splitter.split_documents]. *)
Record t : Type := mk {
  chunk_size : Z;
  chunk_overlap : Z;
  separators : list string;
  splitter : list Document -> list Document
}.

Definition default_separators : list string :=
  [PyStr.nl +:+ PyStr.nl; PyStr.nl; ". "; "! "; "? "; "; "; ", "; " "; ""].

(** [__init__]: [separators or [...]] takes the default for [None] and
    for the empty list. *)
Definition init (chunk_size chunk_overlap : Z)
    (separators : option (list string)) : t :=
  let seps :=
    match separators with
    | Some (sep :: l) => sep :: l
    | _ => default_separators
    end in
  mk chunk_size chunk_overlap seps
     (Splitter.split_documents chunk_size chunk_overlap seps).

(** The statistics dict of [_calculate_statistics]; the average is the
    integer [0] for no chunk and a float otherwise. *)
Inductive number : Type :=
| NInt (n : Z)
| NFloat (x : PyFloat.float).

Definition number_to_int (x : number) : Z :=
  match x with
  | NInt n => n
  | NFloat x => PyFloat.to_int x
  end.

Record statistics : Type := mkStatistics {
  total_chunks : Z;
  avg_chunk_size : number;
  min_chunk_size : Z;
  max_chunk_size : Z;
  total_characters : Z
}.

Definition py_len {A} (l : list A) : Z := Z.of_nat (List.length l).

(** [_calculate_statistics] *)
Definition _calculate_statistics (chunks : list Document)
    : outcome statistics :=
  match chunks with
  | [] => Ok (mkStatistics 0 (NInt 0) 0 0 0)
  | _ =>
      let chunk_sizes := map (fun c => PyStr.len (page_content c)) chunks in
      avg ← Exc.truediv (Exc.py_sum chunk_sizes) (py_len chunk_sizes);
      lo ← Exc.py_min chunk_sizes;
      hi ← Exc.py_max chunk_sizes;
      Ok (mkStatistics (py_len chunks) (NFloat avg) lo hi
            (Exc.py_sum chunk_sizes))
  end.

(** The body of the loop of [_enhance_chunk_metadata] for the chunk at
    position [id]. *)
Definition enhance_chunk (id : Z) (chunk : Document) : outcome Document :=
  let content := page_content chunk in
  let md := <["chunk_id" := VInt id]> (metadata chunk) in
  let md := <["chunk_size" := VInt (PyStr.len content)]> md in
  let word_count := py_len (PyStr.split content) in
  let md := <["word_count" := VInt word_count]> md in
  q ← Exc.truediv word_count 200;
  let md :=
    <["reading_time_seconds" :=
        VInt (PyFloat.to_int (PyFloat.mul q (PyFloat.of_int 60)))]> md in
  let preview :=
    PyStr.replace_char PyStr.newline PyStr.space
      (PyStr.slice_to 100 content) in
  Ok (mkDocument content
        (<["content_preview" := VStr (preview +:+ "...")]> md)).

(** [for id, chunk in enumerate(chunks)], from position [id] on. *)
Fixpoint enhance_from (id : Z) (chunks : list Document)
    : outcome (list Document) :=
  match chunks with
  | [] => Ok []
  | chunk :: rest =>
      chunk' ← enhance_chunk id chunk;
      rest' ← enhance_from (id + 1) rest;
      Ok (chunk' :: rest')
  end.

(** [_enhance_chunk_metadata] *)
Definition _enhance_chunk_metadata (chunks : list Document)
    : outcome (list Document) :=
  enhance_from 0 chunks.

(** [process_documents]; the log lines are left out. *)
Definition process_documents (self : t) (documents : list Document)
    (add_chunk_metadata : bool) : outcome (list Document) :=
  match documents with
  | [] => Ok []
  | _ =>
      let chunks := splitter self documents in
      chunks ← (if add_chunk_metadata
                 then _enhance_chunk_metadata chunks
                 else Ok chunks);
      stats ← _calculate_statistics chunks;
      Ok chunks
  end.

(** [process_single_document] *)
Definition process_single_document (self : t) (document : Document)
    (add_chunk_metadata : bool) : outcome (list Document) :=
  process_documents self [document] add_chunk_metadata.

(** The report of [analyze_chunk_quality]. *)
Record quality_metrics : Type := mkMetrics {
  chunks_too_small : Z;
  chunks_too_large : Z;
  chunks_with_low_context : Z
}.

Record analysis : Type := mkAnalysis {
  a_total_chunks : Z;
  average_size : Z;
  size_range : Z * Z;
  metrics : quality_metrics;
  recommendations : list string
}.

Inductive report : Type :=
| ReportError (msg : string)
| Report (a : analysis).

(** [chunks[i]] *)
Definition py_index {A} (l : list A) (i : Z) : outcome A :=
  match (if i <? 0 then None else l !! Z.to_nat i) with
  | Some x => Ok x
  | None => Raise "list index out of range"
  end.

(** [content and content[0].islower()] *)
Definition starts_lower (content : string) : bool :=
  match content with
  | EmptyString => false
  | String c _ => PyStr.islower c
  end.

(** [range(1, n)] *)
Definition range_from_1 (n : Z) : list Z :=
  map Z.of_nat (seq 1 (Z.to_nat n - 1)).

(** The loop that collects the positions of the chunks that start with a
    lowercase letter; [acc] is [low_context_chunks] so far. *)
Fixpoint low_context_loop (chunks : list Document) (idx : list Z)
    (acc : list Z) : outcome (list Z) :=
  match idx with
  | [] => Ok acc
  | i :: idx' =>
      c ← py_index chunks i;
      low_context_loop chunks idx'
        (if starts_lower (page_content c) then acc ++ [i] else acc)
  end.

Definition is_too_small (self : t) (c : Document) : bool :=
  PyFloat.int_lt (PyStr.len (page_content c))
    (PyFloat.mul (PyFloat.of_int (chunk_size self)) PyFloat.lit_0_3).

Definition is_too_large (self : t) (c : Document) : bool :=
  PyFloat.int_gt (PyStr.len (page_content c))
    (PyFloat.mul (PyFloat.of_int (chunk_size self)) PyFloat.lit_1_5).

Definition rec_small (n : Z) : string :=
  pretty n +:+ " chunks are very small. "
    +:+ "Consider reducing chunk_size or adjusting separators.".
Definition rec_large (n : Z) : string :=
  pretty n +:+ " chunks are very large. "
    +:+ "Consider increasing chunk_size or reviewing document structure.".
Definition rec_low (n : Z) : string :=
  pretty n +:+ " chunks start mid-sentence. "
    +:+ "Consider increasing chunk_overlap for better context.".
Definition rec_good : string := "Chunk quality looks good!".

(** [analyze_chunk_quality] *)
Definition analyze_chunk_quality (self : t) (chunks : list Document)
    : outcome report :=
  match chunks with
  | [] => Ok (ReportError "No chunk to analyze")
  | _ =>
      stats ← _calculate_statistics chunks;
      let too_small := List.filter (is_too_small self) chunks in
      let too_large := List.filter (is_too_large self) chunks in
      low_context_chunks ←
        low_context_loop chunks (range_from_1 (py_len chunks)) [];
      let recs := [] in
      let recs :=
        if PyFloat.int_gt (py_len too_small)
             (PyFloat.mul (PyFloat.of_int (py_len chunks)) PyFloat.lit_0_1)
        then recs ++ [rec_small (py_len too_small)] else recs in
      let recs :=
        if PyFloat.int_gt (py_len too_large)
             (PyFloat.mul (PyFloat.of_int (py_len chunks)) PyFloat.lit_0_1)
        then recs ++ [rec_large (py_len too_large)] else recs in
      let recs :=
        if PyFloat.int_gt (py_len low_context_chunks)
             (PyFloat.mul (PyFloat.of_int (py_len chunks)) PyFloat.lit_0_15)
        then recs ++ [rec_low (py_len low_context_chunks)] else recs in
      let recs :=
        match recs with
        | [] => recs ++ [rec_good]
        | _ => recs
        end in
      Ok (Report
            (mkAnalysis (total_chunks stats)
               (number_to_int (avg_chunk_size stats))
               (min_chunk_size stats, max_chunk_size stats)
               (mkMetrics (py_len too_small) (py_len too_large)
                  (py_len low_context_chunks))
               recs))
  end.

(** [chunk_documents] *)
Definition chunk_documents (documents : list Document)
    (chunk_size chunk_overlap : Z) : outcome (list Document) :=
  process_documents (init chunk_size chunk_overlap None) documents true.

End TextProcessor.

(** ** The collaborators *)

(** The calls that leave the program: to the vector store (Chroma), which
    embeds what it stores and what it searches, and to the language model. *)
Inductive event : Type :=
| EvCount
| EvAddDocuments (batch : list Document)
| EvSimilaritySearch (query : string) (k : Z)
    (filter : option (gmap string value))
| EvGenerate (prompt : string)
| EvGenerateBatch (prompts : list string).

Module World.
Section Collaborators.
(** [W] is the state of the outside world: the persisted collection,
    the model service, the clock. *)
Context {W : Type}.

Record collaborators : Type := mkCollaborators {
  (** [vector_store._collection.count()] *)
  chroma_count : W -> outcome Z * W;
  (** [vector_store.add_documents(batch)] *)
  chroma_add_documents : list Document -> W -> outcome unit * W;
  (** [vector_store.similarity_search(query=, k=, filter=)] *)
  chroma_similarity_search :
    string -> Z -> option (gmap string value) -> W
    -> outcome (list Document) * W;
  (** the chat model on one rendered prompt, and on a batch of them *)
  llm_invoke : string -> W -> outcome string * W;
  llm_batch : list string -> W -> outcome (list string) * W;
  (** [datetime.now()], in microseconds *)
  clock : W -> Z
}.

Record state : Type := mkState {
  world : W;
  trace : list event
}.

(** Computations that call collaborators and may raise. *)
Definition M (A : Type) : Type := state -> outcome A * state.

Definition ret {A} (a : A) : M A := fun st => (Ok a, st).

Definition bind {A B} (m : M A) (k : A -> M B) : M B :=
  fun st =>
    match m st with
    | (Ok a, st') => k a st'
    | (Raise e, st') => (Raise e, st')
    end.

Definition raise {A} (e : exn) : M A := fun st => (Raise e, st).

Definition lift {A} (o : outcome A) : M A := fun st => (o, st).

(** [try: body except Exception as e: handler e]; what the body did
    to the world before it raised stays done. *)
Definition try_except {A} (body : M A) (handler : exn -> M A) : M A :=
  fun st =>
    match body st with
    | (Ok a, st') => (Ok a, st')
    | (Raise e, st') => handler e st'
    end.

(** A call to a collaborator, recorded in the trace. *)
Definition call {A} (ev : event) (f : W -> outcome A * W) : M A :=
  fun st =>
    let '(r, w) := f (world st) in
    (r, mkState w (trace st ++ [ev])).

Definition now (env : collaborators) : M Z :=
  fun st => (Ok (clock env (world st)), st).

(** [(t1 - t0).total_seconds()] *)
Definition total_seconds (t0 t1 : Z) : PyFloat.float :=
  PyFloat.div (PyFloat.of_int (t1 - t0)) (PyFloat.of_int 1000000).

(** [for x in l: body x] *)
Fixpoint for_each {A} (l : list A) (body : A -> M unit) : M unit :=
  match l with
  | [] => ret tt
  | x :: l' => bind (body x) (fun _ => for_each l' body)
  end.

(** [[f x for x in l]] with an effectful [f]. *)
Fixpoint map_m {A B} (f : A -> M B) (l : list A) : M (list B) :=
  match l with
  | [] => ret []
  | x :: l' =>
      bind (f x) (fun y => bind (map_m f l') (fun ys => ret (y :: ys)))
  end.
End Collaborators.

Arguments collaborators W : clear implicits.
Arguments state W : clear implicits.
Arguments M W A : clear implicits.

Global Instance M_ret {W} : MRet (M W) := fun A => ret.
Global Instance M_bind {W} : MBind (M W) := fun A B k m => bind m k.
End World.

(** ** Result dicts *)

Inductive rvalue : Type :=
| RBool (b : bool)
| RInt (n : Z)
| RFloat (x : PyFloat.float)
| RStr (s : string)
| RSources (l : list (gmap string value)).

(** [range(start, stop, step)] *)
Fixpoint range_up (fuel : nat) (i stop step : Z) : list Z :=
  match fuel with
  | O => []
  | S fuel' =>
      if i <? stop then i :: range_up fuel' (i + step) stop step else []
  end.

Fixpoint range_down (fuel : nat) (i stop step : Z) : list Z :=
  match fuel with
  | O => []
  | S fuel' =>
      if stop <? i then i :: range_down fuel' (i + step) stop step else []
  end.

Definition py_range (start stop step : Z) : outcome (list Z) :=
  if step =? 0 then Raise "range() arg 3 must not be zero"
  else if 0 <? step
       then Ok (range_up (Z.to_nat (stop - start)) start stop step)
       else Ok (range_down (Z.to_nat (start - stop)) start stop step).

(** [l[i:j]] for [0 <= i]. *)
Definition py_slice {A} (l : list A) (i j : Z) : list A :=
  take (Z.to_nat (j - i)) (drop (Z.to_nat i) l).

(** ** [vectorstore.py] *)

Module VectorStoreManager.
Import World.

(** The handle on the Chroma collection held in [self.vector_store]. *)
Variant Chroma : Type := ChromaStore (collection : string).

Record t : Type := mk {
  embedding_model_name : string;
  persist_directory : string;
  collection_name : string;
  vector_store : option Chroma
}.

Section Methods.
Context {W : Type} (env : collaborators W).

(** [get_document_count] *)
Definition get_document_count (self : t) : M W Z :=
  match vector_store self with
  | None => ret 0
  | Some _ =>
      try_except (call EvCount (chroma_count env)) (fun _ => ret 0)
  end.

(** [self.vector_store.add_documents(batch)] *)
Definition store_add (self : t) (batch : list Document) : M W unit :=
  match vector_store self with
  | None => raise "'NoneType' object has no attribute 'add_documents'"
  | Some _ => call (EvAddDocuments batch) (chroma_add_documents env batch)
  end.

(** [add_documents] *)
Definition add_documents (self : t) (documents : list Document)
    (batch_size : Z) : M W (gmap string rvalue) :=
  match documents with
  | [] => ret (<["success" := RBool false]>
                 (<["error" := RStr "No documents"]> ∅))
  | _ =>
      start_time ← now env;
      try_except
        (initial_count ← get_document_count self;
         starts ← lift (py_range 0 (TextProcessor.py_len documents)
                          batch_size);
         _ ← for_each starts (fun i =>
                store_add self (py_slice documents i (i + batch_size)));
         final_count ← get_document_count self;
         let added_count := final_count - initial_count in
         end_time ← now env;
         let duration := total_seconds start_time end_time in
         ret (<["success" := RBool true]>
                (<["documents_added" := RInt added_count]>
                   (<["total_documents" := RInt final_count]>
                      (<["duration_seconds" := RFloat duration]> ∅)))))
        (fun e =>
           ret (<["success" := RBool false]>
                  (<["error" := RStr e]> ∅)))
  end.

(** [if filter_dict:] holds for a dict with at least one key. *)
Definition dict_truthy (filter_dict : option (gmap string value))
    : bool :=
  match filter_dict with
  | Some f => bool_decide (f ≠ ∅)
  | None => false
  end.

(** [similarity_search] *)
Definition similarity_search (self : t) (query : string) (k : Z)
    (filter_dict : option (gmap string value)) : M W (list Document) :=
  match vector_store self with
  | None => ret []
  | Some _ =>
      try_except
        (results ←
           (if dict_truthy filter_dict
            then call (EvSimilaritySearch query k filter_dict)
                   (chroma_similarity_search env query k filter_dict)
            else call (EvSimilaritySearch query k None)
                   (chroma_similarity_search env query k None));
         ret results)
        (fun _ => ret [])
  end.
End Methods.

End VectorStoreManager.

(** ** [rag_chain.py] *)

Module RAGChain.
Import World.

Record t : Type := mk {
  vector_store_manager : VectorStoreManager.t;
  k_documents : Z;
  model_name : string
}.

Definition dquote : string := String (ascii_of_nat 34) EmptyString.

(** [_create_prompt]: the template, with the two fields filled in. *)
Definition render_prompt (context question : string) : string :=
  PyStr.join PyStr.nl
    [ "You are a helpful AI assistant answering questions based on provided documents.";
      "";
      "        Context from documents:";
      "        " +:+ context;
      "";
      "        Question: " +:+ question;
      "";
      "        Instructions:";
      "        1. Answer the question using ONLY the information from the context above";
      "        2. If the context doesn't contain enough information, say "
        +:+ dquote
        +:+ "I don't have enough information to answer this question based on the provided documents."
        +:+ dquote;
      "        3. Be specific and cite which document you're referencing when possible";
      "        4. Keep your answer clear and concise";
      "        5. Do not make up information not present in the context";
      "";
      "        Answer:" ].

(** [doc.metadata.get(key, default)], rendered by an f-string. *)
Definition get_str (doc : Document) (key default : string) : string :=
  match metadata doc !! key with
  | Some v => py_str v
  | None => default
  end.

(** The loop of [_format_docs]: [i] is the rank of the next document
    and [formatted] the blocks appended so far. *)
Fixpoint format_loop (i : Z) (docs : list Document)
    (formatted : list string) : list string :=
  match docs with
  | [] => formatted
  | doc :: docs' =>
      let source := get_str doc "source_file" "Unknown" in
      let content := page_content doc in
      format_loop (i + 1) docs'
        (formatted ++
           ["[Source " +:+ pretty i +:+ ": " +:+ source +:+ "]"
              +:+ PyStr.nl +:+ content +:+ PyStr.nl])
  end.

(** [_format_docs] *)
Definition _format_docs (docs : list Document) : string :=
  PyStr.join PyStr.nl (format_loop 1 docs []).

(** [doc.metadata.get(key, default)] *)
Definition get_value (doc : Document) (key : string) (default : value)
    : value :=
  match metadata doc !! key with
  | Some v => v
  | None => default
  end.

(** The loop of [_format_sources]. *)
Fixpoint sources_loop (i : Z) (documents : list Document)
    (sources : list (gmap string value)) : list (gmap string value) :=
  match documents with
  | [] => sources
  | doc :: documents' =>
      let source_info : gmap string value :=
        <["index" := VInt i]>
          (<["file" := get_value doc "source_file" (VStr "Unknown")]>
             (<["chunk_id" := get_value doc "chunk_id" (VStr "N/A")]>
                (<["preview" :=
                     VStr (PyStr.replace_char PyStr.newline PyStr.space
                             (PyStr.slice_to 200 (page_content doc))
                           +:+ "...")]>
                   (<["full_content" := VStr (page_content doc)]> ∅)))) in
      let source_info :=
        match metadata doc !! "page" with
        | Some p => <["page" := p]> source_info
        | None => source_info
        end in
      sources_loop (i + 1) documents' (sources ++ [source_info])
  end.

(** [_format_sources] *)
Definition _format_sources (documents : list Document)
    : list (gmap string value) :=
  sources_loop 1 documents [].

Section Methods.
Context {W : Type} (env : collaborators W).

(** [self.retriever.invoke(question)]: the retriever made by
    [as_retriever(search_kwargs={"k": k_documents})] searches the
    store for the [k_documents] nearest chunks. *)
Definition retriever_invoke (self : t) (question : string)
    : M W (list Document) :=
  call (EvSimilaritySearch question (k_documents self) None)
    (chroma_similarity_search env question (k_documents self) None).

(** [self.chain.invoke(question)]: retrieval, formatting of the
    context, the prompt, the model, the text of its answer. *)
Definition chain_invoke (self : t) (question : string) : M W string :=
  docs ← retriever_invoke self question;
  let prompt := render_prompt (_format_docs docs) question in
  call (EvGenerate prompt) (llm_invoke env prompt).

(** [self.chain.batch(questions)]: every stage of the chain runs over
    all the inputs before the next stage starts; the first failure is
    raised. *)
Definition chain_batch (self : t) (questions : list string)
    : M W (list string) :=
  prompts ← map_m (fun question =>
               docs ← retriever_invoke self question;
               ret (render_prompt (_format_docs docs) question))
             questions;
  call (EvGenerateBatch prompts) (llm_batch env prompts).

Definition blank (question : string) : bool :=
  negb (PyStr.truthy question) || negb (PyStr.truthy (PyStr.strip question)).

(** [query] *)
Definition query (self : t) (question : string) (return_sources : bool)
    : M W (gmap string rvalue) :=
  if blank question
  then ret (<["success" := RBool false]>
              (<["error" := RStr "Empty question provided"]> ∅))
  else
    start_time ← now env;
    try_except
      (retrieved_docs ←
         (if return_sources then retriever_invoke self question
          else ret []);
       answer ← chain_invoke self question;
       end_time ← now env;
       let duration := total_seconds start_time end_time in
       let response : gmap string rvalue :=
         <["success" := RBool true]>
           (<["question" := RStr question]>
              (<["answer" := RStr answer]>
                 (<["processing_time" := RFloat duration]>
                    (<["model" := RStr (model_name self)]> ∅)))) in
       let response :=
         if return_sources
         then
           let sources := _format_sources retrieved_docs in
           <["num_sources" := RInt (TextProcessor.py_len sources)]>
             (<["sources" := RSources sources]> response)
         else response in
       ret response)
      (fun e =>
         ret (<["success" := RBool false]>
                (<["question" := RStr question]>
                   (<["error" := RStr e]> ∅)))).

(** The body of the loop of [batch_query] for one question and its
    answer. *)
Definition batch_result (self : t) (return_sources : bool)
    (qa : string * string) : M W (gmap string rvalue) :=
  let '(question, answer) := qa in
  let result : gmap string rvalue :=
    <["success" := RBool true]>
      (<["question" := RStr question]>
         (<["answer" := RStr answer]>
            (<["model" := RStr (model_name self)]> ∅))) in
  if return_sources
  then
    docs ← retriever_invoke self question;
    ret (<["num_sources" := RInt (TextProcessor.py_len docs)]>
           (<["sources" := RSources (_format_sources docs)]> result))
  else ret result.

(** The dict that reports the failure of a question. *)
Definition failure (question : string) (e : exn) : gmap string rvalue :=
  <["success" := RBool false]>
    (<["question" := RStr question]>
       (<["error" := RStr e]> ∅)).

(** [batch_query] *)
Definition batch_query (self : t) (questions : list string)
    (return_sources : bool) : M W (list (gmap string rvalue)) :=
  try_except
    (answers ← chain_batch self questions;
     map_m (batch_result self return_sources)
       (combine questions answers))
    (fun e => ret (map (fun q => failure q e) questions)).
End Methods.

End RAGChain.

(** ** A deterministic stub of the collaborators *)

(** A world whose store keeps its records in a list and answers a search
    with the first [k] of them, whose model answers every prompt with the
    same sentence, and whose services all fail when it is unreachable. *)
Module Stub.

Record world : Type := mkWorld {
  records : list Document;
  reachable : bool;
  ticks : Z
}.

Definition tick (w : world) : world :=
  mkWorld (records w) (reachable w) (ticks w + 1).

Definition guarded {A} (w : world) (a : A) (w' : world)
    : outcome A * world :=
  if reachable w then (Ok a, w') else (Raise "connection refused", w).

Definition env : World.collaborators world :=
  World.mkCollaborators
    (fun w => guarded w (TextProcessor.py_len (records w)) (tick w))
    (fun batch w =>
       guarded w tt (mkWorld (records w ++ batch) (reachable w) (ticks w + 1)))
    (fun query k filter w =>
       guarded w (take (Z.to_nat k) (records w)) (tick w))
    (fun prompt w => guarded w "Paris." (tick w))
    (fun prompts w => guarded w (map (fun _ => "Paris.") prompts) (tick w))
    ticks.

Definition france : Document :=
  mkDocument "Paris is the capital of France."
    (<["source_file" := VStr "france.txt"]> ∅).

Definition japan : Document :=
  mkDocument "tokyo is the capital of Japan." ∅.

Definition online : World.state world :=
  World.mkState (mkWorld [france; japan] true 0) [].

Definition offline : World.state world :=
  World.mkState (mkWorld [france; japan] false 0) [].

Definition manager : VectorStoreManager.t :=
  VectorStoreManager.mk "sentence-transformers/all-MiniLM-L6-v2"
    "./data/chroma_db" "Langchain"
    (Some (VectorStoreManager.ChromaStore "Langchain")).

Definition rag : RAGChain.t :=
  RAGChain.mk manager 4 "llama-3.3-70b-versatile".

Definition processor : TextProcessor.t :=
  TextProcessor.init Config.CHUNK_SIZE Config.CHUNK_OVERLAP None.

End Stub.

(** ** Notions used by the statements *)

(** The integer that [int((word_count / 200) * 60)] evaluates to in
    binary64 arithmetic. *)
Definition binary64_reading_time (word_count : Z) : Z :=
  PyFloat.to_int
    (PyFloat.mul (PyFloat.div (PyFloat.of_int word_count) (PyFloat.of_int 200))
       (PyFloat.of_int 60)).

(** The chunk that the loop of [_enhance_chunk_metadata] makes of the
    chunk at position [id]. *)
Definition enhanced (id : Z) (chunk : Document) : Document :=
  let content := page_content chunk in
  let word_count := TextProcessor.py_len (PyStr.split content) in
  mkDocument content
    (<["content_preview" :=
         VStr (PyStr.replace_char PyStr.newline PyStr.space
                 (PyStr.slice_to 100 content) +:+ "...")]>
       (<["reading_time_seconds" := VInt (binary64_reading_time word_count)]>
          (<["word_count" := VInt word_count]>
             (<["chunk_size" := VInt (PyStr.len content)]>
                (<["chunk_id" := VInt id]> (metadata chunk)))))).

(** The block of the context for the document of rank [rank]:
    ["[Source {rank}: {source_file}]\n{content}\n"], the source being
    ['Unknown'] for a document whose metadata has no [source_file]. *)
Definition context_block (rank : Z) (doc : Document) : string :=
  "[Source " +:+ pretty rank +:+ ": "
    +:+ match metadata doc !! "source_file" with
        | Some v => py_str v
        | None => "Unknown"
        end
    +:+ "]" +:+ PyStr.nl +:+ page_content doc +:+ PyStr.nl.

(** The number of elements of [l] that satisfy [p]. *)
Definition count_of {A} (p : A -> bool) (l : list A) : Z :=
  Z.of_nat (List.length (List.filter p l)).

(** The triggers of the recommendations, as the source writes them: the
    count is more than 0.1, or 0.15, times the number of chunks, the
    product being the binary64 one. *)
Definition exceeds_10_percent (count total : Z) : bool :=
  PyFloat.int_gt count (PyFloat.mul (PyFloat.of_int total) PyFloat.lit_0_1).

Definition exceeds_15_percent (count total : Z) : bool :=
  PyFloat.int_gt count (PyFloat.mul (PyFloat.of_int total) PyFloat.lit_0_15).

(** For a float [x] that is not negative: the least integer that is not
    below [x], and the greatest integer that is not above it. *)
Definition float_ceil (x : PyFloat.float) : option Z :=
  match x with
  | S754_zero _ => Some 0
  | S754_finite false m e =>
      Some (if 0 <=? e then Z.pos m * 2 ^ e else - (- Z.pos m / 2 ^ (- e)))
  | _ => None
  end.

Definition float_floor (x : PyFloat.float) : option Z :=
  match x with
  | S754_zero _ => Some 0
  | S754_finite false m e =>
      Some (if 0 <=? e then Z.pos m * 2 ^ e else Z.pos m / 2 ^ (- e))
  | _ => None
  end.

Definition ceil_is (x : PyFloat.float) (z : Z) : bool :=
  match float_ceil x with Some c => c =? z | None => false end.

Definition floor_is (x : PyFloat.float) (z : Z) : bool :=
  match float_floor x with Some f => f =? z | None => false end.

(** [p] holds of the [fuel] integers from [z] on. *)
Fixpoint holds_from (fuel : nat) (z : Z) (p : Z -> bool) : bool :=
  match fuel with
  | O => true
  | S fuel' => p z && holds_from fuel' (z + 1) p
  end.

(** The sizes and counts up to which the binary64 products of the
    thresholds are compared with the exact ones, one by one. *)
Definition checked_bound : Z := 5000.


(** ** [document_loader.py]: the metadata of the loaded documents *)

Module DocumentLoader.

(** [c.lower()] for a code point below 256. *)
Definition lower_char (c : ascii) : ascii :=
  let n := nat_of_ascii c in
  if ((65 <=? n) && (n <=? 90)
      || (192 <=? n) && (n <=? 222) && negb (n =? 215))%nat
  then ascii_of_nat (n + 32)
  else c.

(** [s.lower()] *)
Fixpoint lower (s : string) : string :=
  match s with
  | EmptyString => EmptyString
  | String c s' => String (lower_char c) (lower s')
  end.

(** What [pathlib] gives for a path: [str(file_path)], [file_path.name],
    [str(file_path.absolute())] and [file_path.suffix]. *)
Record Path : Type := mkPath {
  as_str : string;
  name : string;
  absolute : string;
  suffix : string
}.

(** The body of the loop of [_enrich_metadata] for the document at
    position [i]: [doc.metadata.update({...})] sets six keys and keeps the
    others.  [loaded_at] is [datetime.now().isoformat()] at that turn. *)
Definition enrich_document (file_path : Path) (total : Z)
    (loaded_at : string) (i : Z) (doc : Document) : Document :=
  mkDocument (page_content doc)
    (<["source_file" := VStr (name file_path)]>
       (<["file_path" := VStr (absolute file_path)]>
          (<["file_type" := VStr (lower (suffix file_path))]>
             (<["loaded_at" := VStr loaded_at]>
                (<["chunk_index" := VInt i]>
                   (<["total_chunks" := VInt total]> (metadata doc))))))).

(** [for i, doc in enumerate(documents)], from position [i] on; [now]
    gives the reading of the clock at each position. *)
Fixpoint enrich_from (file_path : Path) (total : Z) (now : nat -> string)
    (i : nat) (documents : list Document) : list Document :=
  match documents with
  | [] => []
  | doc :: rest =>
      enrich_document file_path total (now i) (Z.of_nat i) doc
        :: enrich_from file_path total now (S i) rest
  end.

(** [_enrich_metadata] *)
Definition _enrich_metadata (now : nat -> string)
    (documents : list Document) (file_path : Path) : list Document :=
  enrich_from file_path (TextProcessor.py_len documents) now 0 documents.

(** [Config.SUPPORTED_FORMATS] and [Config.MAX_FILE_SIZE_MB] *)
Definition SUPPORTED_FORMATS : gset string := {[ ".pdf"; ".txt"; ".docx" ]}.
Definition MAX_FILE_SIZE_MB : Z := 50.

(** The loader: the formats it takes and the size it accepts, in bytes. *)
Record t : Type := mk {
  supported_formats : gset string;
  max_file_size : Z
}.

(** [__init__] *)
Definition init : t := mk SUPPORTED_FORMATS (MAX_FILE_SIZE_MB * 1024 * 1024).

(** The files as the loader finds them: they do not change while it
    runs, and [stat] succeeds on the files that are there. *)
Record FileSystem : Type := mkFileSystem {
  path_exists : Path -> bool;
  is_file : Path -> bool;
  is_dir : Path -> bool;
  st_size : Path -> Z;
  iterdir : Path -> list Path
}.

(** What [TextLoader(path, encoding=encoding).load()] does: the
    documents, a [UnicodeDecodeError], or another exception. *)
Inductive decoded : Type :=
| Decoded (documents : list Document)
| UnicodeDecodeError
| OtherError (e : exn).

(** The loaders of the three formats: [PyPDFLoader(path).load()],
    [TextLoader(path, encoding=encoding).load()] and
    [Docx2txtLoader(path).load()]. *)
Record Loaders : Type := mkLoaders {
  pdf_loader : Path -> outcome (list Document);
  text_loader : Path -> string -> decoded;
  docx_loader : Path -> outcome (list Document)
}.

(** What the messages take from Python: the order in which it iterates
    over a set of strings, and the rendering of a float by [:.2f]. *)
Record Rendering : Type := mkRendering {
  set_order : gset string -> list string;
  format_2f : PyFloat.float -> string
}.

Section Methods.
Variables (py : Rendering) (fs : FileSystem) (ld : Loaders).

(** [_validate_file] *)
Definition _validate_file (self : t) (file_path : Path) : outcome unit :=
  if negb (path_exists fs file_path)
  then Raise ("File not found : " +:+ as_str file_path)
  else if negb (is_file fs file_path)
  then Raise ("Not a file: " +:+ as_str file_path)
  else
    let suffix := lower (suffix file_path) in
    if negb (bool_decide (suffix ∈ supported_formats self))
    then Raise ("Unsupported format: " +:+ suffix +:+ "."
                +:+ "Supported : "
                +:+ PyStr.join ", " (set_order py (supported_formats self)))
    else
      let file_size := st_size fs file_path in
      if max_file_size self <? file_size
      then
        size_mb ← Exc.truediv file_size (1024 * 1024);
        Raise ("File too large: " +:+ format_2f py size_mb +:+ "MB "
               +:+ "(max: " +:+ pretty MAX_FILE_SIZE_MB +:+ "MB)")
      else Ok tt.

(** [_load_pdf] and [_load_docx] *)
Definition _load_pdf (file_path : Path) : outcome (list Document) :=
  pdf_loader ld file_path.

Definition _load_docx (file_path : Path) : outcome (list Document) :=
  docx_loader ld file_path.

(** The loop of [_load_txt] over the encodings that are left. *)
Fixpoint load_txt_loop (file_path : Path) (encodings : list string)
    : outcome (list Document) :=
  match encodings with
  | [] =>
      Raise ("Could not decode " +:+ name file_path
             +:+ " with supported encodings")
  | encoding :: rest =>
      match text_loader ld file_path encoding with
      | Decoded documents => Ok documents
      | UnicodeDecodeError => load_txt_loop file_path rest
      | OtherError e => Raise e
      end
  end.

(** [_load_txt] *)
Definition _load_txt (file_path : Path) : outcome (list Document) :=
  load_txt_loop file_path ["utf-8"; "latin-1"; "cp1252"].

(** [load_document]; its [except] logs the exception and raises it
    again. *)
Definition load_document (now : nat -> string) (self : t)
    (file_path : Path) : outcome (list Document) :=
  _ ← _validate_file self file_path;
  let suffix := lower (suffix file_path) in
  documents ←
    (if String.eqb suffix ".pdf" then _load_pdf file_path
     else if String.eqb suffix ".txt" then _load_txt file_path
     else if String.eqb suffix ".docx" then _load_docx file_path
     else Raise ("Unsupported file format: " +:+ suffix));
  Ok (_enrich_metadata now documents file_path).



End Methods.

End DocumentLoader.

(** ** [vectorstore.py]: the statistics *)

Global Instance value_eq_dec : EqDecision value.
Proof. solve_decision. Defined.

Global Instance value_countable : Countable value.
Proof.
  refine (inj_countable'
            (fun v => match v with VInt n => inl n | VStr s => inr s end)
            (fun x => match x with inl n => VInt n | inr s => VStr s end) _).
  by intros [].
Defined.

(** The values of the dict of [get_statistics].  The list
    [list(source_files)] is made from a set, in an order that Python does
    not fix: it is kept as the set. *)
Inductive svalue : Type :=
| SInt (n : Z)
| SStr (s : string)
| SFiles (files : gset value).

Module VectorStoreStatistics.
Import World.

Section Methods.
Context {W : Type} (env : collaborators W).

(** [set(doc.metadata.get('source_file', 'unknown') for doc in sample)] *)
Definition source_files_of (sample : list Document) : gset value :=
  list_to_set
    (map (fun doc => RAGChain.get_value doc "source_file" (VStr "unknown"))
       sample).

(** [get_statistics] *)
Definition get_statistics (self : VectorStoreManager.t)
    : M W (gmap string svalue) :=
  match VectorStoreManager.vector_store self with
  | None => ret (<["error" := SStr "Vector store not initialized"]> ∅)
  | Some _ =>
      try_except
        (doc_count ← VectorStoreManager.get_document_count env self;
         source_files ←
           (if 0 <? doc_count
            then
              sample ← call (EvSimilaritySearch "test" (Z.min 100 doc_count)
                               None)
                         (chroma_similarity_search env "test"
                            (Z.min 100 doc_count) None);
              ret (source_files_of sample)
            else ret ∅);
         ret (<["total_documents" := SInt doc_count]>
                (<["unique_source_files" :=
                     SInt (Z.of_nat (size source_files))]>
                   (<["source_files" := SFiles source_files]>
                      (<["embedding_model" :=
                           SStr (VectorStoreManager.embedding_model_name
                                   self)]>
                         (<["persist_directory" :=
                              SStr (VectorStoreManager.persist_directory
                                      self)]>
                            (<["collection_name" :=
                                 SStr (VectorStoreManager.collection_name
                                         self)]> ∅)))))))
        (fun e => ret (<["error" := SStr e]> ∅))
  end.

End Methods.

End VectorStoreStatistics.

(** ** [rag_chain.py]: the description of the chain *)

Module RAGChainInfo.
Import World.

Section Methods.
Context {W : Type} (env : collaborators W).

(** [get_chain_info]: the model, the width of the retrieval and the
    number of indexed chunks. *)
Definition get_chain_info (self : RAGChain.t)
    : M W (gmap string rvalue) :=
  vector_store_documents ←
    VectorStoreManager.get_document_count env
      (RAGChain.vector_store_manager self);
  ret
    (<["model" := RStr (RAGChain.model_name self)]>
       (<["k_documents" := RInt (RAGChain.k_documents self)]>
          (<["vector_store_documents" := RInt vector_store_documents]>
             (<["embedding_model" :=
                  RStr (VectorStoreManager.embedding_model_name
                          (RAGChain.vector_store_manager self))]>
                (<["chain_type" :=
                     RStr "LCEL (LangChain Expression Language)"]> ∅))))).

End Methods.

End RAGChainInfo.

(** ** The batches of [add_documents] *)

(** The successive slices of [size] elements of a list; [fuel] bounds
    their number. *)
Fixpoint batches_go {A} (fuel size : nat) (l : list A) : list (list A) :=
  match fuel with
  | O => []
  | S fuel' =>
      match l with
      | [] => []
      | _ => take size l :: batches_go fuel' size (drop size l)
      end
  end.

Definition batches {A} (size : Z) (l : list A) : list (list A) :=
  batches_go (List.length l) (Z.to_nat size) l.

(** The events that [add] leaves in a trace. *)
Definition is_add (ev : event) : bool :=
  match ev with
  | EvAddDocuments _ => true
  | _ => false
  end.

(** ** Further calls to the collaborators *)

(** The calls of [clear_vector_store], of the search with scores and of
    the streaming mode, beside the earlier ones. *)
Inductive event2 : Type :=
| Earlier (e : event)
| EvOpen (collection_name persist_directory : string)
| EvDeleteCollection
| EvSimilaritySearchWithScore (query : string) (k : Z)
    (filter : option (gmap string value))
| EvStream (prompt : string).

Module World2.
Section Collaborators.
Context {W : Type}.

Record collaborators : Type := mkCollaborators {
  earlier : World.collaborators W;
  (** [Chroma(collection_name=, embedding_function=, persist_directory=)] *)
  chroma_open : string -> string -> W
                -> outcome VectorStoreManager.Chroma * W;
  (** [vector_store.delete_collection()] *)
  chroma_delete_collection : W -> outcome unit * W;
  (** [vector_store.similarity_search_with_score(query=, k=, filter=)] *)
  chroma_similarity_search_with_score :
    string -> Z -> option (gmap string value) -> W
    -> outcome (list (Document * PyFloat.float)) * W;
  (** The chat model in streaming mode on one rendered prompt: the
      fragments it produces and, if it stops on one, the exception. *)
  llm_stream : string -> W -> (list string * option exn) * W
}.

Record state : Type := mkState {
  world : W;
  trace : list event2
}.

Definition M (A : Type) : Type := state -> outcome A * state.

Definition ret {A} (a : A) : M A := fun st => (Ok a, st).

Definition bind {A B} (m : M A) (k : A -> M B) : M B :=
  fun st =>
    match m st with
    | (Ok a, st') => k a st'
    | (Raise e, st') => (Raise e, st')
    end.

Definition try_except {A} (body : M A) (handler : exn -> M A) : M A :=
  fun st =>
    match body st with
    | (Ok a, st') => (Ok a, st')
    | (Raise e, st') => handler e st'
    end.

Definition call {A} (ev : event2) (f : W -> outcome A * W) : M A :=
  fun st =>
    let '(r, w) := f (world st) in
    (r, mkState w (trace st ++ [ev])).

End Collaborators.

Arguments collaborators W : clear implicits.
Arguments state W : clear implicits.
Arguments M W A : clear implicits.

Global Instance M_ret {W} : MRet (M W) := fun A => ret.
Global Instance M_bind {W} : MBind (M W) := fun A B k m => bind m k.
End World2.

(** ** [vectorstore.py]: clearing, and the search with scores *)

Module VectorStoreAdmin.
Import World2.

Section Methods.
Context {W : Type} (env : collaborators W).

(** [Chroma(collection_name=self.collection_name, ...)] *)
Definition open_store (self : VectorStoreManager.t)
    : M W VectorStoreManager.Chroma :=
  call (EvOpen (VectorStoreManager.collection_name self)
          (VectorStoreManager.persist_directory self))
    (chroma_open env (VectorStoreManager.collection_name self)
       (VectorStoreManager.persist_directory self)).

Definition with_store (self : VectorStoreManager.t)
    (store : VectorStoreManager.Chroma) : VectorStoreManager.t :=
  VectorStoreManager.mk (VectorStoreManager.embedding_model_name self)
    (VectorStoreManager.persist_directory self)
    (VectorStoreManager.collection_name self) (Some store).

(** [_load_or_create_vector_store].  The method assigns
    [self.vector_store] and may raise after an assignment: the result is
    the manager after the call, together with the exception if one is
    raised. *)
Definition _load_or_create_vector_store (self : VectorStoreManager.t)
    (st : state W) : (VectorStoreManager.t * option exn) * state W :=
  match open_store self st with
  | (Ok store, st1) =>
      match call (Earlier EvCount) (World.chroma_count (earlier env)) st1
      with
      | (Ok _, st2) => ((with_store self store, None), st2)
      | (Raise _, st2) =>
          match open_store self st2 with
          | (Ok store', st3) => ((with_store self store', None), st3)
          | (Raise e, st3) => ((with_store self store, Some e), st3)
          end
      end
  | (Raise _, st1) =>
      match open_store self st1 with
      | (Ok store', st2) => ((with_store self store', None), st2)
      | (Raise e, st2) => ((self, Some e), st2)
      end
  end.

(** [clear_vector_store]: the value returned and the manager after the
    call. *)
Definition clear_vector_store (self : VectorStoreManager.t)
    (st : state W) : (bool * VectorStoreManager.t) * state W :=
  match VectorStoreManager.vector_store self with
  | None => ((false, self), st)
  | Some _ =>
      match call EvDeleteCollection (chroma_delete_collection env) st with
      | (Ok _, st1) =>
          match _load_or_create_vector_store self st1 with
          | ((self', None), st2) => ((true, self'), st2)
          | ((self', Some _), st2) => ((false, self'), st2)
          end
      | (Raise _, st1) => ((false, self), st1)
      end
  end.

(** [similarity_search_with_score]; the loop over the results only
    writes to the log. *)
Definition similarity_search_with_score (self : VectorStoreManager.t)
    (query : string) (k : Z) (filter_dict : option (gmap string value))
    : M W (list (Document * PyFloat.float)) :=
  match VectorStoreManager.vector_store self with
  | None => ret []
  | Some _ =>
      try_except
        (results ←
           (if VectorStoreManager.dict_truthy filter_dict
            then call (EvSimilaritySearchWithScore query k filter_dict)
                   (chroma_similarity_search_with_score env query k
                      filter_dict)
            else call (EvSimilaritySearchWithScore query k None)
                   (chroma_similarity_search_with_score env query k None));
         ret results)
        (fun _ => ret [])
  end.

End Methods.

End VectorStoreAdmin.

(** ** [rag_chain.py]: the streaming mode *)

Module RAGStream.
Import World2.

Section Methods.
Context {W : Type} (env : collaborators W).

(** [stream_query]: the fragments that the generator yields, in order,
    when it is consumed to its end.  [self.chain.stream(question)]
    retrieves, renders the prompt and drives the model in streaming
    mode; an exception of the retrieval or of the model ends the loop and
    yields one more fragment. *)
Definition stream_query (self : RAGChain.t) (question : string)
    (st : state W) : list string * state W :=
  if RAGChain.blank question
  then (["Error: Empty question provided"], st)
  else
    match call (Earlier (EvSimilaritySearch question
                           (RAGChain.k_documents self) None))
            (World.chroma_similarity_search (earlier env) question
               (RAGChain.k_documents self) None) st with
    | (Raise e, st1) => (["Error: " +:+ e], st1)
    | (Ok docs, st1) =>
        let prompt :=
          RAGChain.render_prompt (RAGChain._format_docs docs) question in
        let '((fragments, failure), w) :=
          llm_stream env prompt (world st1) in
        (fragments ++ match failure with
                      | Some e => ["Error: " +:+ e]
                      | None => []
                      end,
         mkState w (trace st1 ++ [EvStream prompt]))
    end.

End Methods.

End RAGStream.

(** ** A stub of the further calls *)

Module Stub2.

(** A directory [docs] with the text file [docs/a.TXT], of 31 bytes, and
    the picture [docs/b.png]. *)
Definition docs_dir : DocumentLoader.Path :=
  DocumentLoader.mkPath "docs" "docs" "/srv/docs" "".

Definition a_txt : DocumentLoader.Path :=
  DocumentLoader.mkPath "docs/a.TXT" "a.TXT" "/srv/docs/a.TXT" ".TXT".

Definition b_png : DocumentLoader.Path :=
  DocumentLoader.mkPath "docs/b.png" "b.png" "/srv/docs/b.png" ".png".

Definition is_path (p q : DocumentLoader.Path) : bool :=
  String.eqb (DocumentLoader.as_str p) (DocumentLoader.as_str q).

Definition fs : DocumentLoader.FileSystem :=
  DocumentLoader.mkFileSystem
    (fun p => is_path p docs_dir || is_path p a_txt || is_path p b_png)
    (fun p => is_path p a_txt || is_path p b_png)
    (fun p => is_path p docs_dir)
    (fun p => if is_path p a_txt then 31 else 0)
    (fun p => if is_path p docs_dir then [a_txt; b_png] else []).

(** Loaders that read every file as the one document of the stub; the
    text loader fails to decode it as UTF-8. *)
Definition loaders : DocumentLoader.Loaders :=
  DocumentLoader.mkLoaders
    (fun p => Ok [Stub.france])
    (fun p encoding =>
       if String.eqb encoding "utf-8" then DocumentLoader.UnicodeDecodeError
       else DocumentLoader.Decoded [Stub.france])
    (fun p => Ok [Stub.france]).

Definition rendering : DocumentLoader.Rendering :=
  DocumentLoader.mkRendering (fun formats => elements formats)
    (fun x => "0.00").

Definition clock (p : DocumentLoader.Path) (i : nat) : string :=
  "2024-01-01T00:00:00".

Definition env : World2.collaborators Stub.world :=
  World2.mkCollaborators Stub.env
    (fun collection directory w =>
       Stub.guarded w (VectorStoreManager.ChromaStore collection)
         (Stub.tick w))
    (fun w =>
       Stub.guarded w tt
         (Stub.mkWorld [] (Stub.reachable w) (Stub.ticks w + 1)))
    (fun query k filter w =>
       Stub.guarded w
         (map (fun d => (d, PyFloat.of_int 1))
            (take (Z.to_nat k) (Stub.records w)))
         (Stub.tick w))
    (fun prompt w =>
       if Stub.reachable w
       then ((["Par"; "is."], None), Stub.tick w)
       else (([], Some "connection refused"), w)).

Definition online : World2.state Stub.world :=
  World2.mkState (World.world Stub.online) [].

Definition offline : World2.state Stub.world :=
  World2.mkState (World.world Stub.offline) [].

(** A world that holds the number of searches that its store still
    answers before it fails; its model answers every prompt. *)
Definition fading : World.collaborators Z :=
  World.mkCollaborators
    (fun w => (Ok 1, w))
    (fun batch w => (Ok tt, w))
    (fun query k filter w =>
       if 0 <? w then (Ok [Stub.france], w - 1)
       else (Raise "store closed", w))
    (fun prompt w => (Ok "Paris.", w))
    (fun prompts w => (Ok (map (fun _ => "Paris.") prompts), w))
    (fun w => 0).

End Stub2.

(** ** Further notions used by the statements *)

(** The entry that the loop of [_format_sources] makes of the document
    of rank [i]. *)
Definition source_info (i : Z) (doc : Document) : gmap string value :=
  let info : gmap string value :=
    <["index" := VInt i]>
      (<["file" := RAGChain.get_value doc "source_file" (VStr "Unknown")]>
         (<["chunk_id" := RAGChain.get_value doc "chunk_id" (VStr "N/A")]>
            (<["preview" :=
                 VStr (PyStr.replace_char PyStr.newline PyStr.space
                         (PyStr.slice_to 200 (page_content doc))
                       +:+ "...")]>
               (<["full_content" := VStr (page_content doc)]> ∅)))) in
  match metadata doc !! "page" with
  | Some p => <["page" := p]> info
  | None => info
  end.

(** The keys that [_enhance_chunk_metadata] writes, and those that
    [_enrich_metadata] writes. *)
Definition enhancement_keys : list string :=
  ["chunk_id"; "chunk_size"; "word_count"; "reading_time_seconds";
   "content_preview"].

Definition enrichment_keys : list string :=
  ["source_file"; "file_path"; "file_type"; "loaded_at"; "chunk_index";
   "total_chunks"].


(** A text without a line break. *)
Definition one_line (s : string) : Prop :=
  PyStr.newline ∉ list_ascii_of_string s.

(** The sum of the lengths of the contents. *)
Definition characters (chunks : list Document) : Z :=
  foldr (fun c acc => PyStr.len (page_content c) + acc) 0 chunks.

(** The batches handed to the store when [bs] are sent one by one, from
    the world [w] on, until the store refuses one: the batches sent, the
    refused one included, the exception of the refusal if there is one,
    and the world after the last call. *)
Fixpoint sent_until_refusal {W} (env : World.collaborators W)
    (bs : list (list Document)) (w : W)
    : list (list Document) * option exn * W :=
  match bs with
  | [] => ([], None, w)
  | b :: bs' =>
      match World.chroma_add_documents env b w with
      | (Ok _, w') =>
          let '(sent, refusal, w'') := sent_until_refusal env bs' w' in
          (b :: sent, refusal, w'')
      | (Raise e, w') => ([b], Some e, w')
      end
  end.
(** * Properties *)

(** ** Lists *)

Lemma map_fmap {A B} (f : A -> B) (l : list A) : map f l = f <$> l.
Proof. reflexivity. Qed.

(** ** Strings *)

Lemma app_cons (c : ascii) (s t : string) :
  String c s +:+ t = String c (s +:+ t).
Proof. reflexivity. Qed.

Lemma app_empty_r (s : string) : s +:+ EmptyString = s.
Proof. induction s as [|c s IH]; [reflexivity|]. by rewrite app_cons, IH. Qed.

Lemma app_assoc_str (s t u : string) : (s +:+ t) +:+ u = s +:+ (t +:+ u).
Proof. induction s as [|c s IH]; [reflexivity|]. by rewrite !app_cons, IH. Qed.

Lemma rev_app_spec (s t : string) :
  String.rev_app s t = String.rev s +:+ t.
Proof.
  unfold String.rev. revert t.
  induction s as [|c s IH]; intros t; [reflexivity|].
  simpl. rewrite (IH (String c t)), (IH (String c EmptyString)).
  by rewrite app_assoc_str.
Qed.

Lemma rev_cons (c : ascii) (s : string) :
  String.rev (String c s) = String.rev s +:+ String c EmptyString.
Proof. unfold String.rev at 1. simpl. apply rev_app_spec. Qed.

Lemma all_space_app (s t : string) :
  PyStr.all_space (s +:+ t) = PyStr.all_space s && PyStr.all_space t.
Proof.
  induction s as [|c s IH]; [reflexivity|].
  rewrite app_cons. simpl. rewrite IH. apply andb_assoc.
Qed.

Lemma all_space_rev (s : string) :
  PyStr.all_space (String.rev s) = PyStr.all_space s.
Proof.
  induction s as [|c s IH]; [reflexivity|].
  rewrite rev_cons, all_space_app, IH. simpl.
  rewrite andb_true_r. apply andb_comm.
Qed.

Lemma lstrip_all_space (s : string) :
  PyStr.all_space s = true -> PyStr.lstrip s = EmptyString.
Proof.
  induction s as [|c s IH]; simpl; [reflexivity|].
  intros [Hc Hs]%andb_true_iff. rewrite Hc. auto.
Qed.

Lemma lstrip_empty_inv (s : string) :
  PyStr.lstrip s = EmptyString -> PyStr.all_space s = true.
Proof.
  induction s as [|c s IH]; simpl; [reflexivity|].
  destruct (PyStr.isspace c); [auto | discriminate].
Qed.

Lemma rev_empty_inv (s : string) : String.rev s = EmptyString -> s = EmptyString.
Proof.
  destruct s as [|c s]; [reflexivity|].
  rewrite rev_cons. destruct (String.rev s); discriminate.
Qed.

(** The head of a left-stripped string is not white space. *)
Lemma lstrip_head (s : string) :
  match PyStr.lstrip s with
  | EmptyString => True
  | String c _ => PyStr.isspace c = false
  end.
Proof.
  induction s as [|c s IH]; simpl; [exact I|].
  destruct (PyStr.isspace c) eqn:Hc; [exact IH | simpl; exact Hc].
Qed.

(** [s.strip()] is the empty string exactly when [s] has white space
    only. *)
Lemma strip_empty_iff (s : string) :
  PyStr.strip s = EmptyString <-> PyStr.all_space s = true.
Proof.
  unfold PyStr.strip, PyStr.rstrip. split.
  - intros H%rev_empty_inv%lstrip_empty_inv.
    rewrite all_space_rev in H.
    pose proof (lstrip_head s) as Hh.
    destruct (PyStr.lstrip s) as [|c t] eqn:Hl.
    + by apply lstrip_empty_inv.
    + simpl in H. rewrite Hh in H. discriminate.
  - intros H. by rewrite (lstrip_all_space s H).
Qed.

Lemma blank_iff (question : string) :
  RAGChain.blank question = true <-> PyStr.all_space question = true.
Proof.
  unfold RAGChain.blank. rewrite orb_true_iff, !negb_true_iff.
  rewrite <- strip_empty_iff. split.
  - intros [H|H].
    + destruct question; [reflexivity | discriminate].
    + destruct (PyStr.strip question); [reflexivity | discriminate].
  - intros ->. by right.
Qed.

(** ** [RAGChain.query] *)

Section Query.
Context {W : Type} (env : World.collaborators W).

(** C1. A question that is empty or made of white space only is rejected:
    [query] returns a dict whose [success] is [False], the state of the
    world is the one before the call, and no event was added to the trace,
    so that neither the retriever nor the language model was called. *)
Theorem query_blank_rejected (self : RAGChain.t) (question : string)
    (return_sources : bool) (st : World.state W) :
  PyStr.all_space question = true ->
  exists res,
    RAGChain.query env self question return_sources st = (Ok res, st)
    /\ res !! "success" = Some (RBool false)
    /\ World.trace (RAGChain.query env self question return_sources st).2
       = World.trace st.
Proof.
  intros Hblank%blank_iff. unfold RAGChain.query. rewrite Hblank.
  eexists. split; [reflexivity|]. split; [|reflexivity].
  by rewrite lookup_insert_eq.
Qed.

(** C7, at the input that breaks it: the dict that [query] returns for
    the empty question has no [question] key, while it has [success] set to
    [False] and an [error]. *)
Theorem query_blank_omits_question (self : RAGChain.t)
    (return_sources : bool) (st : World.state W) :
  exists res,
    RAGChain.query env self "" return_sources st = (Ok res, st)
    /\ res !! "question" = None
    /\ res !! "success" = Some (RBool false)
    /\ res !! "error" = Some (RStr "Empty question provided").
Proof.
  eexists. split; [reflexivity|]. by vm_compute.
Qed.

End Query.

(** C1 on the stub: three spaces. *)
Lemma query_blank_rejected_witness :
  PyStr.all_space "   " = true
  /\ exists res,
       RAGChain.query Stub.env Stub.rag "   " true Stub.online
       = (Ok res, Stub.online)
       /\ res !! "success" = Some (RBool false)
       /\ World.trace
            (RAGChain.query Stub.env Stub.rag "   " true Stub.online).2
          = World.trace Stub.online.
Proof.
  split; [reflexivity|].
  apply (query_blank_rejected Stub.env Stub.rag "   " true Stub.online).
  reflexivity.
Defined.

(** ** [RAGChain.batch_query] *)

Section BatchQuery.
Context {W : Type} (env : World.collaborators W).

Lemma failure_success (q : string) (e : exn) :
  RAGChain.failure q e !! "success" = Some (RBool false).
Proof. unfold RAGChain.failure. by rewrite lookup_insert_eq. Qed.

Lemma failure_question (q : string) (e : exn) :
  RAGChain.failure q e !! "question" = Some (RStr q).
Proof.
  unfold RAGChain.failure.
  rewrite lookup_insert_ne by done. by rewrite lookup_insert_eq.
Qed.

Lemma failure_error (q : string) (e : exn) :
  RAGChain.failure q e !! "error" = Some (RStr e).
Proof.
  unfold RAGChain.failure.
  rewrite !lookup_insert_ne by done. by rewrite lookup_insert_eq.
Qed.

(** What [batch_query] returns when the batch call of the chain raises. *)
Lemma batch_query_raise (self : RAGChain.t) (questions : list string)
    (return_sources : bool) (st st' : World.state W) (e : exn) :
  RAGChain.chain_batch env self questions st = (Raise e, st') ->
  RAGChain.batch_query env self questions return_sources st
  = (Ok (map (fun q => RAGChain.failure q e) questions), st').
Proof.
  intros H. unfold RAGChain.batch_query, World.try_except.
  unfold mbind, World.M_bind, World.bind. by rewrite H.
Qed.

(** C6. When the batch call of the chain raises [e], [batch_query] returns
    one dict per question, in order, each with [success] set to [False],
    the question, and the description of [e] as its [error]; no dict of
    the list reports success. *)
Theorem batch_query_failure (self : RAGChain.t) (questions : list string)
    (return_sources : bool) (st st' : World.state W) (e : exn) :
  RAGChain.chain_batch env self questions st = (Raise e, st') ->
  exists results,
    RAGChain.batch_query env self questions return_sources st
    = (Ok results, st')
    /\ List.length results = List.length questions
    /\ (forall (i : nat) (q : string),
          questions !! i = Some q ->
          exists r,
            results !! i = Some r
            /\ r !! "success" = Some (RBool false)
            /\ r !! "question" = Some (RStr q)
            /\ r !! "error" = Some (RStr e))
    /\ (forall r, r ∈ results -> r !! "success" <> Some (RBool true)).
Proof.
  intros H. eexists. split; [by apply batch_query_raise|].
  rewrite map_fmap.
  split; [by rewrite length_fmap|]. split.
  - intros i q Hq. exists (RAGChain.failure q e).
    rewrite list_lookup_fmap, Hq.
    auto using failure_success, failure_question, failure_error.
  - intros r [q [-> _]]%list_elem_of_fmap.
    by rewrite failure_success.
Qed.

End BatchQuery.

(** C6 on the stub: the services are unreachable and the first retrieval
    of the batch raises. *)
Lemma batch_query_failure_witness :
  exists results,
    RAGChain.batch_query Stub.env Stub.rag
      ["What is the capital of France?"; "And of Japan?"] false Stub.offline
    = (Ok results,
       (RAGChain.chain_batch Stub.env Stub.rag
          ["What is the capital of France?"; "And of Japan?"]
          Stub.offline).2)
    /\ List.length results = 2%nat
    /\ (forall (i : nat) (q : string),
          ["What is the capital of France?"; "And of Japan?"] !! i = Some q ->
          exists r,
            results !! i = Some r
            /\ r !! "success" = Some (RBool false)
            /\ r !! "question" = Some (RStr q)
            /\ r !! "error" = Some (RStr "connection refused"))
    /\ (forall r, r ∈ results -> r !! "success" <> Some (RBool true)).
Proof.
  apply (batch_query_failure Stub.env Stub.rag
           ["What is the capital of France?"; "And of Japan?"] false
           Stub.offline).
  reflexivity.
Defined.

(** ** [VectorStoreManager] *)

Section VectorStore.
Context {W : Type} (env : World.collaborators W).

(** X2.  [similarity_search] returns a list whatever the store does. *)
Lemma similarity_search_total (self : VectorStoreManager.t) (query : string)
    (k : Z) (filter_dict : option (gmap string value)) (st : World.state W) :
  exists docs st',
    VectorStoreManager.similarity_search env self query k filter_dict st
    = (Ok docs, st').
Proof.
  unfold VectorStoreManager.similarity_search.
  destruct (VectorStoreManager.vector_store self); [|by eexists _, _].
  unfold World.try_except, mbind, World.M_bind, World.bind.
  destruct (VectorStoreManager.dict_truthy filter_dict);
    unfold World.call;
    destruct (World.chroma_similarity_search env _ _ _ _) as [[docs|e] w];
    by eexists _, _.
Qed.

(** C4. When the store is not initialised, or when the search call of the
    backend raises, [similarity_search] returns the empty list: the
    outcome is a value, not an exception. *)
Theorem similarity_search_failure_is_empty (self : VectorStoreManager.t)
    (query : string) (k : Z) (filter_dict : option (gmap string value))
    (st : World.state W) :
  VectorStoreManager.vector_store self = None
  \/ (exists e w',
        World.chroma_similarity_search env query k
          (if VectorStoreManager.dict_truthy filter_dict
           then filter_dict else None)
          (World.world st)
        = (Raise e, w')) ->
  exists st',
    VectorStoreManager.similarity_search env self query k filter_dict st
    = (Ok [], st').
Proof.
  unfold VectorStoreManager.similarity_search.
  intros [-> | (e & w' & H)]; [by eexists|].
  destruct (VectorStoreManager.vector_store self); [|by eexists].
  unfold World.try_except, mbind, World.M_bind, World.bind.
  destruct (VectorStoreManager.dict_truthy filter_dict);
    unfold World.call; rewrite H; by eexists.
Qed.

(** C10. [add_documents] with no document returns the dict with
    [success] set to [False] and the error ['No documents'], which has no
    [documents_added]; the state of the world and the trace are the ones
    before the call: nothing was embedded or inserted, and the count of the
    store is what it was. *)
Theorem add_documents_empty (self : VectorStoreManager.t) (batch_size : Z)
    (st : World.state W) :
  exists res,
    VectorStoreManager.add_documents env self [] batch_size st = (Ok res, st)
    /\ res !! "success" = Some (RBool false)
    /\ res !! "error" = Some (RStr "No documents")
    /\ res !! "documents_added" = None
    /\ World.trace
         (VectorStoreManager.add_documents env self [] batch_size st).2
       = World.trace st
    /\ (VectorStoreManager.get_document_count env self
          (VectorStoreManager.add_documents env self [] batch_size st).2).1
       = (VectorStoreManager.get_document_count env self st).1.
Proof.
  eexists. split; [reflexivity|].
  repeat split; by vm_compute.
Qed.

End VectorStore.

(** C4 on the stub: the store is unreachable. *)
Lemma similarity_search_failure_is_empty_witness :
  (VectorStoreManager.vector_store Stub.manager = None
   \/ exists e w',
        World.chroma_similarity_search Stub.env "capital of France" 4
          (if VectorStoreManager.dict_truthy None then None else None)
          (World.world Stub.offline)
        = (Raise e, w'))
  /\ exists st',
       VectorStoreManager.similarity_search Stub.env Stub.manager
         "capital of France" 4 None Stub.offline
       = (Ok [], st').
Proof.
  assert (VectorStoreManager.vector_store Stub.manager = None
          \/ exists e w',
               World.chroma_similarity_search Stub.env "capital of France" 4
                 (if VectorStoreManager.dict_truthy None then None else None)
                 (World.world Stub.offline)
               = (Raise e, w')) as H.
  { right. eexists _, _. reflexivity. }
  split; [exact H|].
  exact (similarity_search_failure_is_empty Stub.env Stub.manager
           "capital of France" 4 None Stub.offline H).
Defined.

(** ** [TextProcessor]: enrichment of the chunks *)

Lemma py_len_cons {A} (x : A) (l : list A) :
  TextProcessor.py_len (x :: l) = TextProcessor.py_len l + 1.
Proof. unfold TextProcessor.py_len. simpl List.length. lia. Qed.

Lemma py_len_nonneg {A} (l : list A) : 0 <= TextProcessor.py_len l.
Proof. unfold TextProcessor.py_len. lia. Qed.

Lemma enhance_chunk_ok (id : Z) (chunk : Document) :
  TextProcessor.enhance_chunk id chunk = Ok (enhanced id chunk).
Proof. reflexivity. Qed.

(** The loop of [_enhance_chunk_metadata] never raises and numbers the
    chunks from [id] on. *)
Lemma enhance_from_ok (chunks : list Document) (id : Z) :
  TextProcessor.enhance_from id chunks
  = Ok (imap (fun i c => enhanced (id + Z.of_nat i) c) chunks).
Proof.
  revert id. induction chunks as [|c chunks IH]; intros id; [reflexivity|].
  cbn [TextProcessor.enhance_from]. rewrite enhance_chunk_ok, IH.
  cbn. f_equal. f_equal; [by rewrite Z.add_0_r|].
  apply imap_ext. intros i x _. cbn. f_equal. lia.
Qed.

(** The statistics are computed for every list of chunks: the guard on the
    empty list keeps the division and the extrema defined. *)
Lemma _calculate_statistics_ok (chunks : list Document) :
  exists stats, TextProcessor._calculate_statistics chunks = Ok stats.
Proof.
  destruct chunks as [|c chunks]; [by eexists|].
  unfold TextProcessor._calculate_statistics, Exc.truediv.
  rewrite py_len_cons.
  pose proof (py_len_nonneg (map (fun c => PyStr.len (page_content c)) chunks)).
  destruct (Z.eqb_spec
              (TextProcessor.py_len
                 (map (fun c => PyStr.len (page_content c)) chunks) + 1) 0)
    as [Hz|_]; [lia|].
  by eexists.
Qed.

(** What [process_documents] returns when it enriches the chunks. *)
Lemma process_documents_ok (self : TextProcessor.t)
    (documents : list Document) :
  documents <> [] ->
  TextProcessor.process_documents self documents true
  = Ok (imap (fun i c => enhanced (Z.of_nat i) c)
          (TextProcessor.splitter self documents)).
Proof.
  intros Hne. unfold TextProcessor.process_documents.
  destruct documents as [|d documents]; [done|].
  unfold TextProcessor._enhance_chunk_metadata. rewrite enhance_from_ok.
  cbn [mbind outcome_bind Exc.bind].
  destruct (_calculate_statistics_ok
              (imap (fun i c => enhanced (0 + Z.of_nat i) c)
                 (TextProcessor.splitter self (d :: documents)))) as [s ->].
  reflexivity.
Qed.

(** [int((word_count / 200) * 60)] is the integer part of three tenths of
    the word count as long as there are fewer than 410 words. *)
Lemma binary64_reading_time_table :
  forallb (fun n => binary64_reading_time (Z.of_nat n) =? 3 * Z.of_nat n / 10)
    (seq 0 410) = true.
Proof. vm_compute. reflexivity. Qed.

Lemma binary64_reading_time_small (word_count : Z) :
  0 <= word_count < 410 ->
  binary64_reading_time word_count = 3 * word_count / 10.
Proof.
  intros H. pose proof binary64_reading_time_table as T.
  rewrite forallb_forall in T.
  specialize (T (Z.to_nat word_count)).
  rewrite Z2Nat.id in T by lia. apply Z.eqb_eq, T.
  apply in_seq. lia.
Qed.

(** With 410 words the rounding of the two float operations shows. *)
Lemma binary64_reading_time_410 :
  binary64_reading_time 410 = 122 /\ 3 * 410 / 10 = 123.
Proof. split; vm_compute; reflexivity. Qed.

Lemma enhanced_lookups (id : Z) (chunk : Document) :
  let c := enhanced id chunk in
  let word_count := TextProcessor.py_len (PyStr.split (page_content c)) in
  page_content c = page_content chunk
  /\ metadata c !! "chunk_id" = Some (VInt id)
  /\ metadata c !! "chunk_size" = Some (VInt (PyStr.len (page_content c)))
  /\ metadata c !! "word_count" = Some (VInt word_count)
  /\ metadata c !! "reading_time_seconds"
     = Some (VInt (binary64_reading_time word_count))
  /\ metadata c !! "content_preview"
     = Some (VStr (PyStr.replace_char PyStr.newline PyStr.space
                     (PyStr.slice_to 100 (page_content c)) +:+ "...")).
Proof.
  cbn zeta. unfold enhanced. cbn [page_content metadata].
  split; [reflexivity|].
  repeat split;
    repeat (rewrite lookup_insert_ne by done); by rewrite lookup_insert_eq.
Qed.

(** C2, as amended.  One call of [process_documents] with enrichment
    returns chunks whose [chunk_id] is their position in the whole list,
    from 0 on in the order of emission, and not restarted with each
    document; each one has [chunk_size] equal to the number of characters
    of its content, [word_count] equal to the number of its words, and
    [reading_time_seconds] equal to the integer [int((word_count/200)*60)]
    of binary64 arithmetic, which is the integer part of three tenths of
    the word count for fewer than 410 words. *)
Theorem process_documents_chunk_metadata (self : TextProcessor.t)
    (documents : list Document) :
  exists chunks,
    TextProcessor.process_documents self documents true = Ok chunks
    /\ (documents <> [] ->
        page_content <$> chunks
        = page_content <$> TextProcessor.splitter self documents)
    /\ forall (i : nat) (c : Document),
         chunks !! i = Some c ->
         let word_count :=
           TextProcessor.py_len (PyStr.split (page_content c)) in
         metadata c !! "chunk_id" = Some (VInt (Z.of_nat i))
         /\ metadata c !! "chunk_size"
            = Some (VInt (PyStr.len (page_content c)))
         /\ metadata c !! "word_count" = Some (VInt word_count)
         /\ metadata c !! "reading_time_seconds"
            = Some (VInt (binary64_reading_time word_count))
         /\ (word_count < 410 ->
             binary64_reading_time word_count = 3 * word_count / 10).
Proof.
  destruct documents as [|d documents].
  { exists []. split; [reflexivity|]. split; [done|]. by intros i c H. }
  eexists. split; [by apply process_documents_ok|]. split.
  - intros _. apply list_eq. intros i.
    rewrite !list_lookup_fmap, list_lookup_imap.
    by destruct (TextProcessor.splitter self (d :: documents) !! i).
  - intros i c H. rewrite list_lookup_imap in H.
    destruct (TextProcessor.splitter self (d :: documents) !! i) as [c0|];
      [|done].
    injection H as <-.
    destruct (enhanced_lookups (Z.of_nat i) c0) as (_ & ? & ? & ? & ? & _).
    cbn zeta. repeat split; try done.
    intros Hlt. apply binary64_reading_time_small.
    split; [apply py_len_nonneg | done].
Qed.

(** C2, as it was stated, fails: the claim gives [reading_time_seconds]
    as [word_count/200*60], that is [200 * reading_time_seconds =
    word_count * 60]; the one-word document gets [0], not three tenths. *)
Lemma reading_time_is_not_the_quotient :
  exists chunks c,
    TextProcessor.process_documents Stub.processor
      [mkDocument "hello" ∅] true = Ok chunks
    /\ chunks !! 0%nat = Some c
    /\ metadata c !! "word_count" = Some (VInt 1)
    /\ metadata c !! "reading_time_seconds" = Some (VInt 0)
    /\ 200 * 0 <> 1 * 60.
Proof.
  eexists _, _. split; [vm_compute; reflexivity|].
  split; [reflexivity|]. repeat split; by vm_compute.
Qed.

(** C8, as amended.  The [content_preview] of every enriched chunk is the
    first 100 characters of its content in which every newline is replaced
    by a space, followed by three dots. *)
Theorem process_documents_content_preview (self : TextProcessor.t)
    (documents : list Document) :
  exists chunks,
    TextProcessor.process_documents self documents true = Ok chunks
    /\ forall c : Document,
         c ∈ chunks ->
         metadata c !! "content_preview"
         = Some (VStr (PyStr.replace_char PyStr.newline PyStr.space
                         (PyStr.slice_to 100 (page_content c)) +:+ "...")).
Proof.
  destruct documents as [|d documents].
  { exists []. split; [reflexivity|]. by intros c H%elem_of_nil. }
  eexists. split; [by apply process_documents_ok|].
  intros c (i & H)%list_elem_of_lookup. rewrite list_lookup_imap in H.
  destruct (TextProcessor.splitter self (d :: documents) !! i) as [c0|];
    [|done].
  injection H as <-.
  by destruct (enhanced_lookups (Z.of_nat i) c0) as (_ & _ & _ & _ & _ & ?).
Qed.

(** C8, as it was stated, fails: the preview of a chunk is not the first
    100 characters of its content, it ends in three dots. *)
Lemma content_preview_is_not_the_prefix :
  exists chunks c,
    TextProcessor.process_documents Stub.processor
      [mkDocument "hello" ∅] true = Ok chunks
    /\ chunks !! 0%nat = Some c
    /\ PyStr.slice_to 100 (page_content c) = "hello"
    /\ metadata c !! "content_preview" = Some (VStr "hello...")
    /\ metadata c !! "content_preview"
       <> Some (VStr (PyStr.slice_to 100 (page_content c))).
Proof.
  eexists _, _. split; [vm_compute; reflexivity|].
  split; [reflexivity|]. repeat split; by vm_compute.
Qed.

(** ** The splitter on a document without content *)

Lemma split_text_empty (chunk_size chunk_overlap : Z)
    (separators : list string) :
  Splitter.split_text chunk_size chunk_overlap separators EmptyString = [].
Proof.
  destruct separators as [|sep rest]; [reflexivity|].
  cbn [Splitter.split_text].
  replace (Splitter.pieces sep EmptyString) with (@nil string);
    [reflexivity|].
  by destruct sep.
Qed.

(** C9.  [process_documents] returns the empty list of chunks, and raises
    nothing, for the empty list of documents and for one document with
    empty content, whatever the sizes, the separators and the metadata. *)
Theorem process_documents_empty_input (chunk_size chunk_overlap : Z)
    (separators : option (list string)) (md : gmap string value)
    (add_chunk_metadata : bool) :
  let self := TextProcessor.init chunk_size chunk_overlap separators in
  TextProcessor.process_documents self [] add_chunk_metadata = Ok []
  /\ TextProcessor.process_documents self [mkDocument EmptyString md]
       add_chunk_metadata = Ok [].
Proof.
  cbn zeta. split; [reflexivity|].
  unfold TextProcessor.process_documents, TextProcessor.init.
  cbn [TextProcessor.splitter].
  unfold Splitter.split_documents. cbn [flat_map page_content].
  rewrite split_text_empty. by destruct add_chunk_metadata.
Qed.

(** The scenario of the design document: two one-line documents, chunked
    with size 100 and no overlap, give two chunks. *)
Example chunk_documents_two_lines :
  exists chunks,
    TextProcessor.chunk_documents
      [mkDocument "Paris is the capital of France." ∅;
       mkDocument "Tokyo is the capital of Japan." ∅] 100 0 = Ok chunks
    /\ page_content <$> chunks
       = ["Paris is the capital of France.";
          "Tokyo is the capital of Japan."]
    /\ (fun c => metadata c !! "chunk_id") <$> chunks
       = [Some (VInt 0); Some (VInt 1)].
Proof. eexists. split; [vm_compute; reflexivity|]. by vm_compute. Qed.

(** ** The thresholds in exact arithmetic *)

Lemma holds_from_spec (p : Z -> bool) (fuel : nat) (z k : Z) :
  holds_from fuel z p = true -> z <= k < z + Z.of_nat fuel -> p k = true.
Proof.
  revert z. induction fuel as [|fuel IH]; intros z H Hk; [lia|].
  cbn [holds_from] in H. apply andb_true_iff in H as [Hz Hrest].
  destruct (Z.eq_dec k z) as [->|Hne]; [done|].
  apply (IH (z + 1)); [done | lia].
Qed.

(** An integer is below a float when it is below its ceiling, and above it
    when it is above its floor. *)
Lemma int_lt_ceil (x : PyFloat.float) (c n : Z) :
  float_ceil x = Some c -> PyFloat.int_lt n x = (n <? c).
Proof.
  unfold float_ceil, PyFloat.int_lt, PyFloat.compare_int.
  destruct x as [s|s| |[|] m e]; try discriminate.
  - intros [= <-]. destruct (Z.compare_spec n 0), (Z.ltb_spec n 0);
      (reflexivity || lia).
  - destruct (Z.leb_spec 0 e) as [He|He]; intros [= <-].
    + destruct (Z.compare_spec n (Z.pos m * 2 ^ e)),
        (Z.ltb_spec n (Z.pos m * 2 ^ e)); (reflexivity || lia).
    + assert (0 < 2 ^ (- e)) as Hd by (apply Z.pow_pos_nonneg; lia).
      pose proof (Z.mul_div_le (- Z.pos m) _ Hd) as Hlo.
      pose proof (Z.mul_succ_div_gt (- Z.pos m) _ Hd) as Hhi.
      destruct (Z.compare_spec (n * 2 ^ (- e)) (Z.pos m)),
        (Z.ltb_spec n (- (- Z.pos m / 2 ^ (- e)))); (reflexivity || nia).
Qed.

Lemma int_gt_floor (x : PyFloat.float) (f n : Z) :
  float_floor x = Some f -> PyFloat.int_gt n x = (f <? n).
Proof.
  unfold float_floor, PyFloat.int_gt, PyFloat.compare_int.
  destruct x as [s|s| |[|] m e]; try discriminate.
  - intros [= <-]. destruct (Z.compare_spec n 0), (Z.ltb_spec 0 n);
      (reflexivity || lia).
  - destruct (Z.leb_spec 0 e) as [He|He]; intros [= <-].
    + destruct (Z.compare_spec n (Z.pos m * 2 ^ e)),
        (Z.ltb_spec (Z.pos m * 2 ^ e) n); (reflexivity || lia).
    + assert (0 < 2 ^ (- e)) as Hd by (apply Z.pow_pos_nonneg; lia).
      pose proof (Z.mul_div_le (Z.pos m) _ Hd) as Hlo.
      pose proof (Z.mul_succ_div_gt (Z.pos m) _ Hd) as Hhi.
      destruct (Z.compare_spec (n * 2 ^ (- e)) (Z.pos m)),
        (Z.ltb_spec (Z.pos m / 2 ^ (- e)) n); (reflexivity || nia).
Qed.

Lemma table_0_3 :
  holds_from (S (Z.to_nat checked_bound)) 0
    (fun z => ceil_is (PyFloat.mul (PyFloat.of_int z) PyFloat.lit_0_3)
                (- (- (3 * z) / 10))) = true.
Proof. vm_compute. reflexivity. Qed.

Lemma table_1_5 :
  holds_from (S (Z.to_nat checked_bound)) 0
    (fun z => floor_is (PyFloat.mul (PyFloat.of_int z) PyFloat.lit_1_5)
                (3 * z / 2)) = true.
Proof. vm_compute. reflexivity. Qed.

Lemma table_0_1 :
  holds_from (S (Z.to_nat checked_bound)) 0
    (fun z => floor_is (PyFloat.mul (PyFloat.of_int z) PyFloat.lit_0_1)
                (z / 10)) = true.
Proof. vm_compute. reflexivity. Qed.

Lemma table_0_15 :
  holds_from (S (Z.to_nat checked_bound)) 0
    (fun z => floor_is (PyFloat.mul (PyFloat.of_int z) PyFloat.lit_0_15)
                (3 * z / 20)) = true.
Proof. vm_compute. reflexivity. Qed.

Lemma ceil_is_spec (x : PyFloat.float) (z : Z) :
  ceil_is x z = true -> float_ceil x = Some z.
Proof.
  unfold ceil_is. destruct (float_ceil x); [|discriminate].
  by intros ->%Z.eqb_eq.
Qed.

Lemma floor_is_spec (x : PyFloat.float) (z : Z) :
  floor_is x z = true -> float_floor x = Some z.
Proof.
  unfold floor_is. destruct (float_floor x); [|discriminate].
  by intros ->%Z.eqb_eq.
Qed.

(** For the sizes and the counts up to [checked_bound], the comparisons
    with the binary64 products [size * 0.3], [size * 1.5], [total * 0.1]
    and [total * 0.15] are the comparisons with three tenths, three halves,
    one tenth and three twentieths in exact arithmetic. *)
Lemma thresholds_exact (size n : Z) :
  0 <= size <= checked_bound ->
  PyFloat.int_lt n (PyFloat.mul (PyFloat.of_int size) PyFloat.lit_0_3)
  = (10 * n <? 3 * size)
  /\ PyFloat.int_gt n (PyFloat.mul (PyFloat.of_int size) PyFloat.lit_1_5)
     = (3 * size <? 2 * n)
  /\ exceeds_10_percent n size = (size <? 10 * n)
  /\ exceeds_15_percent n size = (3 * size <? 20 * n).
Proof.
  intros Hsize.
  assert (0 <= size < 0 + Z.of_nat (S (Z.to_nat checked_bound))) as Hk
    by (rewrite Nat2Z.inj_succ, Z2Nat.id; unfold checked_bound in *; lia).
  pose proof (holds_from_spec _ _ 0 size table_0_3 Hk) as H1.
  pose proof (holds_from_spec _ _ 0 size table_1_5 Hk) as H2.
  pose proof (holds_from_spec _ _ 0 size table_0_1 Hk) as H3.
  pose proof (holds_from_spec _ _ 0 size table_0_15 Hk) as H4.
  cbv beta in H1, H2, H3, H4.
  apply ceil_is_spec in H1. apply floor_is_spec in H2, H3, H4.
  unfold exceeds_10_percent, exceeds_15_percent.
  rewrite (int_lt_ceil _ _ n H1), (int_gt_floor _ _ n H2),
    (int_gt_floor _ _ n H3), (int_gt_floor _ _ n H4).
  pose proof (Z.mul_div_le (- (3 * size)) 10 ltac:(lia)).
  pose proof (Z.mul_succ_div_gt (- (3 * size)) 10 ltac:(lia)).
  pose proof (Z.mul_div_le (3 * size) 2 ltac:(lia)).
  pose proof (Z.mul_succ_div_gt (3 * size) 2 ltac:(lia)).
  pose proof (Z.mul_div_le size 10 ltac:(lia)).
  pose proof (Z.mul_succ_div_gt size 10 ltac:(lia)).
  pose proof (Z.mul_div_le (3 * size) 20 ltac:(lia)).
  pose proof (Z.mul_succ_div_gt (3 * size) 20 ltac:(lia)).
  repeat split.
  - destruct (Z.ltb_spec n (- (- (3 * size) / 10))),
      (Z.ltb_spec (10 * n) (3 * size)); (reflexivity || lia).
  - destruct (Z.ltb_spec (3 * size / 2) n),
      (Z.ltb_spec (3 * size) (2 * n)); (reflexivity || lia).
  - destruct (Z.ltb_spec (size / 10) n),
      (Z.ltb_spec size (10 * n)); (reflexivity || lia).
  - destruct (Z.ltb_spec (3 * size / 20) n),
      (Z.ltb_spec (3 * size) (20 * n)); (reflexivity || lia).
Qed.

(** ** [RAGChain._format_docs] *)

Lemma join_snoc (sep : string) (parts : list string) (p : string) :
  parts <> [] ->
  PyStr.join sep (parts ++ [p]) = PyStr.join sep parts +:+ sep +:+ p.
Proof.
  induction parts as [|a parts IH]; [done|]. intros _.
  destruct parts as [|b parts]; [reflexivity|].
  change (PyStr.join sep ((a :: b :: parts) ++ [p]))
    with (a +:+ sep +:+ PyStr.join sep ((b :: parts) ++ [p])).
  rewrite IH by done.
  change (PyStr.join sep (a :: b :: parts))
    with (a +:+ sep +:+ PyStr.join sep (b :: parts)).
  by rewrite !app_assoc_str.
Qed.

(** The loop appends one block per document, the ranks following the
    order of the list. *)
Lemma format_loop_spec (docs : list Document) (i : Z)
    (formatted : list string) :
  RAGChain.format_loop i docs formatted
  = formatted ++ imap (fun j d => context_block (i + Z.of_nat j) d) docs.
Proof.
  revert i formatted.
  induction docs as [|d docs IH]; intros i formatted.
  { by rewrite app_nil_r. }
  cbn [RAGChain.format_loop]. rewrite IH, imap_cons, <- app_assoc.
  f_equal. cbn [app]. f_equal.
  - by rewrite Z.add_0_r.
  - apply imap_ext. intros j x _. cbn. f_equal. lia.
Qed.

(** C3.  The context is the join, with a newline, of one block per
    retrieved chunk, the block of the chunk at position [j] being
    ["[Source {j+1}: {source_file}]\n{content}\n"]; as every block ends in
    a newline, a further chunk adds an empty line and its block; a chunk
    without [source_file] is rendered with the source ['Unknown']. *)
Theorem format_docs_renders_in_rank_order :
  (forall docs : list Document,
     RAGChain._format_docs docs
     = PyStr.join PyStr.nl
         (imap (fun j d => context_block (Z.of_nat j + 1) d) docs))
  /\ (forall (docs : list Document) (d : Document),
        docs <> [] ->
        RAGChain._format_docs (docs ++ [d])
        = RAGChain._format_docs docs +:+ PyStr.nl
            +:+ context_block (TextProcessor.py_len docs + 1) d)
  /\ (forall (rank : Z) (d : Document),
        metadata d !! "source_file" = None ->
        context_block rank d
        = "[Source " +:+ pretty rank +:+ ": Unknown]" +:+ PyStr.nl
            +:+ page_content d +:+ PyStr.nl).
Proof.
  assert (forall docs : list Document,
            RAGChain._format_docs docs
            = PyStr.join PyStr.nl
                (imap (fun j d => context_block (Z.of_nat j + 1) d) docs))
    as Hjoin.
  { intros docs. unfold RAGChain._format_docs.
    rewrite format_loop_spec. cbn [app]. f_equal.
    apply imap_ext. intros j x _. cbn. f_equal. lia. }
  split; [exact Hjoin|]. split.
  - intros docs d Hne. rewrite !Hjoin, imap_app. cbn [imap].
    rewrite join_snoc.
    + do 3 f_equal. unfold TextProcessor.py_len. lia.
    + destruct docs; [done | by rewrite imap_cons].
  - intros rank d H. unfold context_block. by rewrite H.
Qed.

(** The context of the two records of the stub. *)
Example format_docs_stub :
  RAGChain._format_docs [Stub.france; Stub.japan]
  = "[Source 1: france.txt]
Paris is the capital of France.

[Source 2: Unknown]
tokyo is the capital of Japan.
".
Proof. vm_compute. reflexivity. Qed.

(** ** [TextProcessor.analyze_chunk_quality] *)

Lemma py_index_middle {A} (pre rest : list A) (x : A) :
  TextProcessor.py_index (pre ++ x :: rest) (Z.of_nat (List.length pre))
  = Ok x.
Proof.
  unfold TextProcessor.py_index.
  destruct (Z.ltb_spec (Z.of_nat (List.length pre)) 0) as [Hneg|_]; [lia|].
  by rewrite Nat2Z.id, list_lookup_middle.
Qed.

(** The loop over [range(1, len(chunks))] never raises, and it collects as
    many positions as there are chunks, the first one apart, that start
    with a lowercase letter. *)
Lemma low_context_loop_count (rest pre : list Document) (acc : list Z) :
  exists low,
    TextProcessor.low_context_loop (pre ++ rest)
      (map Z.of_nat (seq (List.length pre) (List.length rest))) acc = Ok low
    /\ TextProcessor.py_len low
       = TextProcessor.py_len acc
         + count_of (fun c => TextProcessor.starts_lower (page_content c))
             rest.
Proof.
  revert pre acc.
  induction rest as [|c rest IH]; intros pre acc.
  { exists acc. split; [reflexivity|]. unfold count_of. simpl. lia. }
  cbn [List.length seq map TextProcessor.low_context_loop].
  rewrite py_index_middle. cbn [mbind outcome_bind Exc.bind].
  specialize (IH (pre ++ [c])
                (if TextProcessor.starts_lower (page_content c)
                 then acc ++ [Z.of_nat (List.length pre)] else acc)).
  rewrite <- app_assoc, length_app in IH. cbn [app List.length] in IH.
  rewrite Nat.add_1_r in IH.
  destruct IH as (low & -> & Hlen). exists low. split; [reflexivity|].
  rewrite Hlen. unfold count_of, TextProcessor.py_len. cbn [List.filter].
  destruct (TextProcessor.starts_lower (page_content c));
    cbn [List.length]; rewrite ?length_app; cbn [List.length]; lia.
Qed.





(** ** The shape of the dicts that [RAGChain.query] returns *)

Section QueryShape.
Context {W : Type} (env : World.collaborators W).

(** X1.  [query] never raises; the dict it returns has an [error] exactly
    when its [success] is [False]; and it has the question under
    [question] whenever the question is not blank. *)
Lemma query_result_shape (self : RAGChain.t) (question : string)
    (return_sources : bool) (st : World.state W) :
  exists res st',
    RAGChain.query env self question return_sources st = (Ok res, st')
    /\ (is_Some (res !! "error") <-> res !! "success" = Some (RBool false))
    /\ (PyStr.all_space question = false ->
        res !! "question" = Some (RStr question)).
Proof.
  unfold RAGChain.query.
  destruct (RAGChain.blank question) eqn:Hb.
  - apply blank_iff in Hb. eexists _, _. split; [reflexivity|]. split.
    + split; [intros _ | intros _; eexists]; by vm_compute.
    + intros Hn. congruence.
  - unfold RAGChain.chain_invoke, RAGChain.retriever_invoke.
    unfold mbind, World.M_bind, World.bind, World.try_except, World.now,
      World.call, World.ret.
    destruct return_sources;
      repeat match goal with
             | |- context [World.chroma_similarity_search env ?q ?k ?f ?w] =>
                 destruct (World.chroma_similarity_search env q k f w)
                   as [[?|?] ?]
             | |- context [World.llm_invoke env ?p ?w] =>
                 destruct (World.llm_invoke env p w) as [[?|?] ?]
             end;
      eexists _, _; (split; [reflexivity|]); split;
      try (intros _; repeat (rewrite lookup_insert_ne by done);
           by rewrite lookup_insert_eq);
      repeat (rewrite lookup_insert_ne by done);
      rewrite ?lookup_insert_eq, ?lookup_empty;
      (split; [intros [? ?] | intros ?]); (done || by eexists).
Qed.

End QueryShape.

(** ** [TextProcessor._calculate_statistics] *)

Lemma fold_min_spec (l : list Z) (x : Z) :
  fold_left Z.min l x <= x
  /\ (forall y, y ∈ l -> fold_left Z.min l x <= y)
  /\ fold_left Z.min l x ∈ x :: l.
Proof.
  revert x. induction l as [|y l IH]; intros x; cbn [fold_left].
  - split; [lia|]. split; [by intros y Hy; apply elem_of_nil in Hy|].
    apply elem_of_cons. by left.
  - destruct (IH (Z.min x y)) as (H1 & H2 & H3). split; [lia|]. split.
    + intros z [->|Hz]%elem_of_cons; [lia | by apply H2].
    + apply elem_of_cons in H3 as [H3|H3].
      * rewrite H3.
        destruct (Z.min_spec x y) as [[_ ->]|[_ ->]];
          rewrite !elem_of_cons; auto.
      * rewrite !elem_of_cons; auto.
Qed.

Lemma fold_max_spec (l : list Z) (x : Z) :
  x <= fold_left Z.max l x
  /\ (forall y, y ∈ l -> y <= fold_left Z.max l x)
  /\ fold_left Z.max l x ∈ x :: l.
Proof.
  revert x. induction l as [|y l IH]; intros x; cbn [fold_left].
  - split; [lia|]. split; [by intros y Hy; apply elem_of_nil in Hy|].
    apply elem_of_cons. by left.
  - destruct (IH (Z.max x y)) as (H1 & H2 & H3). split; [lia|]. split.
    + intros z [->|Hz]%elem_of_cons; [lia | by apply H2].
    + apply elem_of_cons in H3 as [H3|H3].
      * rewrite H3.
        destruct (Z.max_spec x y) as [[_ ->]|[_ ->]];
          rewrite !elem_of_cons; auto.
      * rewrite !elem_of_cons; auto.
Qed.

Lemma py_sum_spec (l : list Z) (a : Z) :
  fold_left Z.add l a = a + foldr Z.add 0 l.
Proof.
  revert a. induction l as [|x l IH]; intros a; cbn [fold_left foldr];
    [lia|]. rewrite IH. lia.
Qed.

Lemma characters_sizes (chunks : list Document) :
  Exc.py_sum (map (fun c => PyStr.len (page_content c)) chunks)
  = characters chunks.
Proof.
  unfold Exc.py_sum. rewrite py_sum_spec, Z.add_0_l.
  induction chunks as [|c chunks IH]; [reflexivity|].
  cbn [map foldr characters]. by rewrite IH.
Qed.

Lemma characters_bounds (chunks : list Document) (lo hi : Z) :
  (forall c, c ∈ chunks -> lo <= PyStr.len (page_content c) <= hi) ->
  lo * TextProcessor.py_len chunks <= characters chunks
  <= hi * TextProcessor.py_len chunks.
Proof.
  induction chunks as [|c chunks IH]; intros H.
  { unfold TextProcessor.py_len, characters. simpl. lia. }
  rewrite py_len_cons. cbn [characters foldr].
  fold (characters chunks).
  assert (lo <= PyStr.len (page_content c) <= hi)
    by (apply H, elem_of_cons; by left).
  assert (lo * TextProcessor.py_len chunks <= characters chunks
          <= hi * TextProcessor.py_len chunks)
    by (apply IH; intros c' Hc'; apply H, elem_of_cons; by right).
  lia.
Qed.

(** What [_calculate_statistics] computes for chunks that are there. *)
Lemma _calculate_statistics_spec (chunks : list Document) :
  chunks <> [] ->
  exists stats,
    TextProcessor._calculate_statistics chunks = Ok stats
    /\ TextProcessor.total_chunks stats = TextProcessor.py_len chunks
    /\ TextProcessor.total_characters stats = characters chunks
    /\ TextProcessor.avg_chunk_size stats
       = TextProcessor.NFloat
           (PyFloat.div (PyFloat.of_int (characters chunks))
              (PyFloat.of_int (TextProcessor.py_len chunks)))
    /\ (forall c, c ∈ chunks ->
          TextProcessor.min_chunk_size stats <= PyStr.len (page_content c)
          <= TextProcessor.max_chunk_size stats)
    /\ (exists c, c ∈ chunks
          /\ PyStr.len (page_content c) = TextProcessor.min_chunk_size stats)
    /\ (exists c, c ∈ chunks
          /\ PyStr.len (page_content c) = TextProcessor.max_chunk_size stats).
Proof.
  intros Hne. destruct chunks as [|c0 chunks]; [done|].
  unfold TextProcessor._calculate_statistics, Exc.truediv.
  rewrite !characters_sizes.
  set (sizes := map (fun c => PyStr.len (page_content c)) (c0 :: chunks)).
  assert (TextProcessor.py_len sizes = TextProcessor.py_len (c0 :: chunks))
    as Hlen by (unfold TextProcessor.py_len, sizes; by rewrite length_map).
  rewrite Hlen.
  pose proof (py_len_nonneg chunks).
  destruct (Z.eqb_spec (TextProcessor.py_len (c0 :: chunks)) 0) as [Hz|_];
    [rewrite py_len_cons in Hz; lia|].
  cbn [mbind outcome_bind Exc.bind].
  unfold sizes. cbn [map Exc.py_min Exc.py_max Exc.bind].
  eexists. split; [reflexivity|].
  cbn [TextProcessor.total_chunks TextProcessor.total_characters
       TextProcessor.avg_chunk_size TextProcessor.min_chunk_size
       TextProcessor.max_chunk_size].
  split; [reflexivity|]. split; [reflexivity|]. split; [reflexivity|].
  set (rest := map (fun c => PyStr.len (page_content c)) chunks).
  destruct (fold_min_spec rest (PyStr.len (page_content c0)))
    as (Hm1 & Hm2 & Hm3).
  destruct (fold_max_spec rest (PyStr.len (page_content c0)))
    as (HM1 & HM2 & HM3).
  assert (forall z, z ∈ PyStr.len (page_content c0) :: rest ->
            exists c, c ∈ c0 :: chunks /\ PyStr.len (page_content c) = z)
    as Hin.
  { intros z [->|Hz]%elem_of_cons.
    - exists c0. split; [apply elem_of_cons; by left | done].
    - unfold rest in Hz. rewrite map_fmap in Hz.
      apply list_elem_of_fmap in Hz as (c & -> & Hc).
      exists c. split; [apply elem_of_cons; by right | done]. }
  split; [|split; [by apply Hin | by apply Hin]].
  intros c [->|Hc]%elem_of_cons; [lia|].
  assert (PyStr.len (page_content c) ∈ rest)
    by (unfold rest; rewrite map_fmap; apply list_elem_of_fmap; eauto).
  split; [by apply Hm2 | by apply HM2].
Qed.

(** X3.  For a list of chunks that is not empty, [_calculate_statistics]
    returns the number of chunks, the sum of the lengths of their
    contents, the binary64 quotient of the two as the average, and as
    minimum and maximum two lengths that occur in the list and that
    bound the length of every chunk; the sum lies between the number of
    chunks times the minimum and times the maximum. *)
Theorem calculate_statistics_extrema (chunks : list Document) :
  chunks <> [] ->
  exists stats,
    TextProcessor._calculate_statistics chunks = Ok stats
    /\ TextProcessor.total_chunks stats = TextProcessor.py_len chunks
    /\ TextProcessor.total_characters stats = characters chunks
    /\ TextProcessor.avg_chunk_size stats
       = TextProcessor.NFloat
           (PyFloat.div (PyFloat.of_int (characters chunks))
              (PyFloat.of_int (TextProcessor.py_len chunks)))
    /\ (forall c, c ∈ chunks ->
          TextProcessor.min_chunk_size stats <= PyStr.len (page_content c)
          <= TextProcessor.max_chunk_size stats)
    /\ (exists c, c ∈ chunks
          /\ PyStr.len (page_content c) = TextProcessor.min_chunk_size stats)
    /\ (exists c, c ∈ chunks
          /\ PyStr.len (page_content c) = TextProcessor.max_chunk_size stats)
    /\ TextProcessor.min_chunk_size stats * TextProcessor.total_chunks stats
       <= TextProcessor.total_characters stats
       <= TextProcessor.max_chunk_size stats * TextProcessor.total_chunks stats.
Proof.
  intros Hne.
  destruct (_calculate_statistics_spec chunks Hne)
    as (stats & Hs & Hn & Ht & Ha & Hb & Hlo & Hhi).
  exists stats. repeat (split; [done|]).
  rewrite Hn, Ht. by apply characters_bounds.
Qed.

(** The statistics of the two chunks of the stub: 31 and 30 characters. *)
Lemma calculate_statistics_extrema_witness :
  [Stub.france; Stub.japan] <> []
  /\ exists stats,
       TextProcessor._calculate_statistics [Stub.france; Stub.japan]
       = Ok stats
       /\ TextProcessor.total_chunks stats = 2
       /\ TextProcessor.total_characters stats = 61.
Proof.
  split; [done|].
  destruct (calculate_statistics_extrema [Stub.france; Stub.japan]
              ltac:(done)) as (stats & Hs & Hn & Ht & _).
  exists stats. split; [exact Hs|]. rewrite Hn, Ht.
  split; vm_compute; reflexivity.
Defined.

(** ** [TextProcessor.analyze_chunk_quality]: the counts *)

Lemma filter_disjoint_length {A} (p q : A -> bool) (l : list A) :
  (forall x, p x && q x = false) ->
  count_of p l + count_of q l <= TextProcessor.py_len l.
Proof.
  intros H. unfold count_of, TextProcessor.py_len.
  induction l as [|x l IH]; [simpl; lia|].
  cbn [List.filter]. specialize (H x).
  destruct (p x), (q x); try discriminate; cbn [List.length]; lia.
Qed.

Lemma count_of_bounds {A} (p : A -> bool) (l : list A) :
  0 <= count_of p l <= TextProcessor.py_len l.
Proof.
  unfold count_of, TextProcessor.py_len. split; [lia|].
  apply inj_le, List.filter_length_le.
Qed.

(** X4.  For a chunk size between 0 and the checked bound and a list of
    chunks that is not empty, the report of [analyze_chunk_quality]
    counts every chunk, no chunk is counted both as too small and as too
    large, the chunks of low context are fewer than the chunks, and the
    range goes from a minimum to a maximum that is not below it. *)
Theorem analyze_chunk_quality_counts (self : TextProcessor.t)
    (chunks : list Document) :
  chunks <> [] ->
  0 <= TextProcessor.chunk_size self <= checked_bound ->
  exists a,
    TextProcessor.analyze_chunk_quality self chunks
    = Ok (TextProcessor.Report a)
    /\ TextProcessor.a_total_chunks a = TextProcessor.py_len chunks
    /\ 0 <= TextProcessor.chunks_too_small (TextProcessor.metrics a)
    /\ 0 <= TextProcessor.chunks_too_large (TextProcessor.metrics a)
    /\ TextProcessor.chunks_too_small (TextProcessor.metrics a)
       + TextProcessor.chunks_too_large (TextProcessor.metrics a)
       <= TextProcessor.a_total_chunks a
    /\ 0 <= TextProcessor.chunks_with_low_context (TextProcessor.metrics a)
       < TextProcessor.a_total_chunks a
    /\ fst (TextProcessor.size_range a) <= snd (TextProcessor.size_range a).
Proof.
  intros Hne Hsize.
  destruct (_calculate_statistics_spec chunks Hne)
    as (stats & Hs & Hn & _ & _ & Hb & (cmin & Hcmin & _) & _).
  destruct chunks as [|c0 chunks]; [done|].
  unfold TextProcessor.analyze_chunk_quality. rewrite Hs.
  cbn [mbind outcome_bind Exc.bind].
  destruct (low_context_loop_count chunks [c0] []) as (low & Hlow & Hlen).
  unfold TextProcessor.range_from_1.
  replace (Z.to_nat (TextProcessor.py_len (c0 :: chunks)) - 1)%nat
    with (List.length chunks)
    by (unfold TextProcessor.py_len; cbn [List.length]; lia).
  cbn [List.length app] in Hlow. rewrite Hlow.
  cbn [mbind outcome_bind Exc.bind].
  change (TextProcessor.py_len (@nil Z)) with 0 in Hlen.
  rewrite Z.add_0_l in Hlen.
  eexists. split; [reflexivity|].
  cbn [TextProcessor.metrics TextProcessor.chunks_too_small
       TextProcessor.chunks_too_large TextProcessor.chunks_with_low_context
       TextProcessor.a_total_chunks TextProcessor.size_range fst snd].
  rewrite Hlen, Hn.
  change (TextProcessor.py_len
            (List.filter (TextProcessor.is_too_small self) (c0 :: chunks)))
    with (count_of (TextProcessor.is_too_small self) (c0 :: chunks)).
  change (TextProcessor.py_len
            (List.filter (TextProcessor.is_too_large self) (c0 :: chunks)))
    with (count_of (TextProcessor.is_too_large self) (c0 :: chunks)).
  pose proof (count_of_bounds (TextProcessor.is_too_small self)
                (c0 :: chunks)).
  pose proof (count_of_bounds (TextProcessor.is_too_large self)
                (c0 :: chunks)).
  pose proof (count_of_bounds
                (fun c => TextProcessor.starts_lower (page_content c))
                chunks).
  rewrite py_len_cons in *.
  split; [reflexivity|]. split; [lia|]. split; [lia|]. split.
  - rewrite <- (py_len_cons c0). apply filter_disjoint_length. intros c.
    unfold TextProcessor.is_too_small, TextProcessor.is_too_large.
    destruct (thresholds_exact (TextProcessor.chunk_size self)
                (PyStr.len (page_content c)) Hsize) as (-> & -> & _).
    assert (0 <= PyStr.len (page_content c)) by (unfold PyStr.len; lia).
    destruct (Z.ltb_spec (10 * PyStr.len (page_content c))
                (3 * TextProcessor.chunk_size self)),
      (Z.ltb_spec (3 * TextProcessor.chunk_size self)
         (2 * PyStr.len (page_content c))); (reflexivity || lia).
  - split; [lia|]. specialize (Hb cmin Hcmin). lia.
Qed.

(** X4 on the two chunks of the stub, with the default chunk size. *)
Lemma analyze_chunk_quality_counts_witness :
  [Stub.france; Stub.japan] <> []
  /\ 0 <= TextProcessor.chunk_size Stub.processor <= checked_bound
  /\ exists a,
       TextProcessor.analyze_chunk_quality Stub.processor
         [Stub.france; Stub.japan]
       = Ok (TextProcessor.Report a)
       /\ TextProcessor.a_total_chunks a = 2.
Proof.
  split; [done|]. split; [by vm_compute|].
  destruct (analyze_chunk_quality_counts Stub.processor
              [Stub.france; Stub.japan] ltac:(done) ltac:(by vm_compute))
    as (a & Ha & Hn & _).
  exists a. split; [exact Ha|]. rewrite Hn. reflexivity.
Defined.

(** ** [TextProcessor.process_documents]: what it leaves as it was *)

Lemma enhanced_other_keys (id : Z) (chunk : Document) (key : string) :
  key ∉ enhancement_keys ->
  metadata (enhanced id chunk) !! key = metadata chunk !! key.
Proof.
  unfold enhancement_keys. rewrite !not_elem_of_cons.
  intros (? & ? & ? & ? & ? & _).
  unfold enhanced. cbn [metadata].
  by rewrite !lookup_insert_ne by done.
Qed.

(** X5.  [process_documents] never raises, with or without enrichment.
    It returns as many chunks as the splitter makes, in the same order
    and with the same contents; without enrichment they are the chunks of
    the splitter, and with it their metadata differ from those of the
    splitter in the five keys of the enrichment only. *)
Theorem process_documents_keeps_chunks (self : TextProcessor.t)
    (documents : list Document) (add_chunk_metadata : bool) :
  exists chunks,
    TextProcessor.process_documents self documents add_chunk_metadata
    = Ok chunks
    /\ (documents = [] -> chunks = [])
    /\ (documents <> [] ->
        List.length chunks
        = List.length (TextProcessor.splitter self documents)
        /\ (add_chunk_metadata = false ->
            chunks = TextProcessor.splitter self documents)
        /\ forall (i : nat) (c : Document),
             chunks !! i = Some c ->
             exists c0,
               TextProcessor.splitter self documents !! i = Some c0
               /\ page_content c = page_content c0
               /\ forall key,
                    key ∉ enhancement_keys ->
                    metadata c !! key = metadata c0 !! key).
Proof.
  destruct documents as [|d documents].
  { exists []. split; [reflexivity|]. split; [done|]. by intros H. }
  destruct add_chunk_metadata.
  - eexists. split; [by apply process_documents_ok|].
    split; [done|]. intros _. split; [by rewrite length_imap|].
    split; [done|]. intros i c H.
    apply list_lookup_imap_Some in H as (c0 & H0 & ->).
    exists c0. split; [done|]. split; [reflexivity|].
    intros key Hkey. by apply enhanced_other_keys.
  - unfold TextProcessor.process_documents.
    cbn [mbind outcome_bind Exc.bind].
    destruct (_calculate_statistics_ok
                (TextProcessor.splitter self (d :: documents))) as [s ->].
    eexists. split; [reflexivity|]. split; [done|]. intros _.
    split; [done|]. split; [done|]. intros i c H. by exists c.
Qed.

(** ** Previews *)

Lemma slice_to_length (n : nat) (s : string) :
  String.length (PyStr.slice_to n s) = Nat.min n (String.length s).
Proof.
  revert s. induction n as [|n IH]; intros [|c s]; cbn; try lia.
  specialize (IH s). lia.
Qed.

Lemma replace_char_length (a b : ascii) (s : string) :
  String.length (PyStr.replace_char a b s) = String.length s.
Proof.
  induction s as [|c s IH]; [reflexivity|]. cbn.
  by destruct (Ascii.eqb c a); cbn; rewrite IH.
Qed.

Lemma length_app_str (s t : string) :
  String.length (s +:+ t) = (String.length s + String.length t)%nat.
Proof.
  induction s as [|c s IH]; [reflexivity|].
  rewrite app_cons. cbn. by rewrite IH.
Qed.

Lemma list_ascii_app (s t : string) :
  list_ascii_of_string (s +:+ t)
  = list_ascii_of_string s ++ list_ascii_of_string t.
Proof.
  induction s as [|c s IH]; [reflexivity|].
  rewrite app_cons. cbn. by rewrite IH.
Qed.

Lemma replace_char_absent (a b : ascii) (s : string) :
  a <> b -> a ∉ list_ascii_of_string (PyStr.replace_char a b s).
Proof.
  intros Hab. induction s as [|c s IH]; [apply not_elem_of_nil|].
  cbn. destruct (Ascii.eqb_spec c a) as [->|Hc]; cbn;
    apply not_elem_of_cons; split; auto.
Qed.

(** The preview made of the first [n] characters of a content. *)
Lemma preview_spec (n : nat) (content : string) :
  let preview :=
    PyStr.replace_char PyStr.newline PyStr.space (PyStr.slice_to n content)
    +:+ "..." in
  PyStr.len preview = Z.min (Z.of_nat n) (PyStr.len content) + 3
  /\ one_line preview.
Proof.
  cbn zeta. split.
  - unfold PyStr.len.
    rewrite length_app_str, replace_char_length, slice_to_length.
    cbn [String.length]. lia.
  - unfold one_line. rewrite list_ascii_app, elem_of_app.
    intros [H|H].
    + by apply replace_char_absent in H.
    + revert H.
      change (PyStr.newline ∉ ["."%char; "."%char; "."%char]).
      rewrite !not_elem_of_cons.
      repeat split; try (by vm_compute). apply not_elem_of_nil.
Qed.

(** X6.  The [content_preview] of every enriched chunk is a text of one
    line; its length is 3 more than the length of the content, and 103 for
    a content of more than 100 characters. *)
Theorem content_preview_is_one_short_line (self : TextProcessor.t)
    (documents : list Document) :
  exists chunks,
    TextProcessor.process_documents self documents true = Ok chunks
    /\ forall c : Document,
         c ∈ chunks ->
         exists preview,
           metadata c !! "content_preview" = Some (VStr preview)
           /\ PyStr.len preview
              = Z.min 100 (PyStr.len (page_content c)) + 3
           /\ one_line preview.
Proof.
  destruct documents as [|d documents].
  { exists []. split; [reflexivity|]. by intros c H%elem_of_nil. }
  eexists. split; [by apply process_documents_ok|].
  intros c (i & H)%list_elem_of_lookup.
  apply list_lookup_imap_Some in H as (c0 & _ & ->).
  destruct (enhanced_lookups (Z.of_nat i) c0) as (_ & _ & _ & _ & _ & Hp).
  eexists. split; [exact Hp|].
  apply (preview_spec 100).
Qed.

(** ** [RAGChain._format_sources] *)

Lemma sources_loop_spec (documents : list Document) (i : Z)
    (sources : list (gmap string value)) :
  RAGChain.sources_loop i documents sources
  = sources ++ imap (fun j d => source_info (i + Z.of_nat j) d) documents.
Proof.
  revert i sources.
  induction documents as [|d documents IH]; intros i sources.
  { by rewrite app_nil_r. }
  cbn [RAGChain.sources_loop]. rewrite IH, imap_cons, <- app_assoc.
  f_equal. cbn [app]. f_equal.
  - by rewrite Z.add_0_r.
  - apply imap_ext. intros j x _. cbn. f_equal. lia.
Qed.

Lemma format_sources_spec (documents : list Document) :
  RAGChain._format_sources documents
  = imap (fun j d => source_info (Z.of_nat j + 1) d) documents.
Proof.
  unfold RAGChain._format_sources. rewrite sources_loop_spec. cbn [app].
  apply imap_ext. intros j x _. cbn. f_equal. lia.
Qed.

Lemma source_info_lookups (i : Z) (doc : Document) :
  source_info i doc !! "index" = Some (VInt i)
  /\ source_info i doc !! "file"
     = Some (default (VStr "Unknown") (metadata doc !! "source_file"))
  /\ source_info i doc !! "chunk_id"
     = Some (default (VStr "N/A") (metadata doc !! "chunk_id"))
  /\ source_info i doc !! "full_content" = Some (VStr (page_content doc))
  /\ source_info i doc !! "page" = metadata doc !! "page"
  /\ source_info i doc !! "preview"
     = Some (VStr (PyStr.replace_char PyStr.newline PyStr.space
                     (PyStr.slice_to 200 (page_content doc)) +:+ "...")).
Proof.
  unfold source_info, RAGChain.get_value.
  destruct (metadata doc !! "page") as [p|] eqn:Hp;
    destruct (metadata doc !! "source_file"),
      (metadata doc !! "chunk_id"); cbn [default];
    repeat split;
    repeat (rewrite lookup_insert_ne by done);
    rewrite ?lookup_insert_eq, ?lookup_empty; reflexivity.
Qed.

(** X7.  [_format_sources] makes one entry per document, in order.  The
    entry of the document at position [i] has the [index] [i + 1], the
    [source_file] and the [chunk_id] of the document, or ['Unknown'] and
    ['N/A'] for a document without them, the content in full, the [page]
    exactly when the document has one, and a [preview] of one line, whose
    length is 3 more than the length of the content, and 203 for a content
    of more than 200 characters. *)
Theorem format_sources_entries (documents : list Document) :
  List.length (RAGChain._format_sources documents) = List.length documents
  /\ forall (i : nat) (doc : Document),
       documents !! i = Some doc ->
       exists s preview,
         RAGChain._format_sources documents !! i = Some s
         /\ s !! "index" = Some (VInt (Z.of_nat i + 1))
         /\ s !! "file"
            = Some (default (VStr "Unknown") (metadata doc !! "source_file"))
         /\ s !! "chunk_id"
            = Some (default (VStr "N/A") (metadata doc !! "chunk_id"))
         /\ s !! "full_content" = Some (VStr (page_content doc))
         /\ s !! "page" = metadata doc !! "page"
         /\ s !! "preview" = Some (VStr preview)
         /\ PyStr.len preview
            = Z.min 200 (PyStr.len (page_content doc)) + 3
         /\ one_line preview.
Proof.
  rewrite format_sources_spec. split; [by rewrite length_imap|].
  intros i doc H.
  destruct (source_info_lookups (Z.of_nat i + 1) doc)
    as (H1 & H2 & H3 & H4 & H5 & H6).
  eexists _, _. rewrite list_lookup_imap, H. cbn [fmap option_fmap option_map].
  split; [reflexivity|].
  repeat (split; [eassumption|]).
  apply (preview_spec 200).
Qed.

(** ** [DocumentLoader._enrich_metadata] *)

Lemma enrich_from_spec (file_path : DocumentLoader.Path) (total : Z)
    (now : nat -> string) (documents : list Document) (i : nat) :
  DocumentLoader.enrich_from file_path total now i documents
  = imap (fun j d =>
            DocumentLoader.enrich_document file_path total (now (i + j)%nat)
              (Z.of_nat (i + j)) d) documents.
Proof.
  revert i. induction documents as [|d documents IH]; intros i;
    [reflexivity|].
  cbn [DocumentLoader.enrich_from]. rewrite IH, imap_cons.
  rewrite Nat.add_0_r. f_equal.
  apply imap_ext. intros j x _. cbn. by rewrite Nat.add_succ_r.
Qed.

Lemma enrich_document_lookups (file_path : DocumentLoader.Path)
    (total : Z) (loaded_at : string) (i : Z) (doc : Document) :
  let d := DocumentLoader.enrich_document file_path total loaded_at i doc in
  page_content d = page_content doc
  /\ metadata d !! "chunk_index" = Some (VInt i)
  /\ metadata d !! "total_chunks" = Some (VInt total)
  /\ metadata d !! "source_file"
     = Some (VStr (DocumentLoader.name file_path))
  /\ metadata d !! "file_path"
     = Some (VStr (DocumentLoader.absolute file_path))
  /\ metadata d !! "file_type"
     = Some (VStr (DocumentLoader.lower (DocumentLoader.suffix file_path)))
  /\ metadata d !! "loaded_at" = Some (VStr loaded_at)
  /\ forall key,
       key ∉ enrichment_keys -> metadata d !! key = metadata doc !! key.
Proof.
  cbn zeta. unfold DocumentLoader.enrich_document.
  cbn [page_content metadata].
  split; [reflexivity|].
  repeat (split;
          [repeat (rewrite lookup_insert_ne by done);
           by rewrite lookup_insert_eq|]).
  intros key. unfold enrichment_keys. rewrite !not_elem_of_cons.
  intros (? & ? & ? & ? & ? & ? & _).
  by rewrite !lookup_insert_ne by done.
Qed.

(** X8.  [_enrich_metadata] returns the documents it is given, in order
    and with their contents.  The document at position [i] gets the
    [chunk_index] [i], the number of documents as [total_chunks], the name
    of the file as [source_file], its absolute path as [file_path], its
    suffix in lower case as [file_type] and the time of its turn as
    [loaded_at]; its other metadata stay as they were. *)
Theorem enrich_metadata_positions (now : nat -> string)
    (documents : list Document) (file_path : DocumentLoader.Path) :
  List.length (DocumentLoader._enrich_metadata now documents file_path)
  = List.length documents
  /\ forall (i : nat) (doc : Document),
       documents !! i = Some doc ->
       exists d,
         DocumentLoader._enrich_metadata now documents file_path !! i
         = Some d
         /\ page_content d = page_content doc
         /\ metadata d !! "chunk_index" = Some (VInt (Z.of_nat i))
         /\ metadata d !! "total_chunks"
            = Some (VInt (TextProcessor.py_len documents))
         /\ metadata d !! "source_file"
            = Some (VStr (DocumentLoader.name file_path))
         /\ metadata d !! "file_path"
            = Some (VStr (DocumentLoader.absolute file_path))
         /\ metadata d !! "file_type"
            = Some (VStr (DocumentLoader.lower
                            (DocumentLoader.suffix file_path)))
         /\ metadata d !! "loaded_at" = Some (VStr (now i))
         /\ forall key,
              key ∉ enrichment_keys ->
              metadata d !! key = metadata doc !! key.
Proof.
  unfold DocumentLoader._enrich_metadata. rewrite enrich_from_spec.
  split; [by rewrite length_imap|].
  intros i doc H. eexists. rewrite list_lookup_imap, H.
  cbn [fmap option_fmap option_map]. split; [reflexivity|].
  apply (enrich_document_lookups file_path
           (TextProcessor.py_len documents) (now i) (Z.of_nat i) doc).
Qed.

(** ** From the loader to the answer *)

Lemma singleton_list_to_set (v : value) :
  (list_to_set [v] : gset value) = {[ v ]}.
Proof. cbn. by rewrite union_empty_r_L. Qed.

(** X9.  A document that the loader has enriched and the processor has
    enhanced is cited by the name of its file: in the context that
    [_format_docs] renders, in the [file] of its entry in
    [_format_sources], whose [chunk_id] is the one of the processor, and
    in the set of files that [get_statistics] collects. *)
Theorem loaded_chunk_is_cited_by_its_file (file_path : DocumentLoader.Path)
    (total : Z) (loaded_at : string) (i id : Z) (doc : Document) :
  exists chunk,
    TextProcessor.enhance_chunk id
      (DocumentLoader.enrich_document file_path total loaded_at i doc)
    = Ok chunk
    /\ RAGChain._format_docs [chunk]
       = "[Source 1: " +:+ DocumentLoader.name file_path +:+ "]"
           +:+ PyStr.nl +:+ page_content doc +:+ PyStr.nl
    /\ (exists s,
          RAGChain._format_sources [chunk] = [s]
          /\ s !! "file" = Some (VStr (DocumentLoader.name file_path))
          /\ s !! "chunk_id" = Some (VInt id))
    /\ VectorStoreStatistics.source_files_of [chunk]
       = {[ VStr (DocumentLoader.name file_path) ]}.
Proof.
  eexists. split; [apply enhance_chunk_ok|].
  set (loaded :=
         DocumentLoader.enrich_document file_path total loaded_at i doc).
  destruct (enrich_document_lookups file_path total loaded_at i doc)
    as (Hc & _ & _ & Hs & _).
  fold loaded in Hc, Hs.
  destruct (enhanced_lookups id loaded) as (Hc' & Hid & _).
  assert (metadata (enhanced id loaded) !! "source_file"
          = Some (VStr (DocumentLoader.name file_path))) as Hs'.
  { rewrite enhanced_other_keys; [done|].
    unfold enhancement_keys. rewrite !not_elem_of_cons.
    repeat split; try done. apply not_elem_of_nil. }
  split; [|split].
  - unfold RAGChain._format_docs. cbn [RAGChain.format_loop app PyStr.join].
    unfold RAGChain.get_str. rewrite Hs', Hc', Hc. reflexivity.
  - rewrite format_sources_spec. cbn [imap]. eexists.
    split; [reflexivity|].
    destruct (source_info_lookups (Z.of_nat 0 + 1) (enhanced id loaded))
      as (_ & H2 & H3 & _).
    rewrite H2, H3, Hs', Hid. done.
  - unfold VectorStoreStatistics.source_files_of. cbn [map].
    unfold RAGChain.get_value. rewrite Hs'. apply singleton_list_to_set.
Qed.

(** ** [VectorStoreManager.add_documents] *)

Lemma batches_go_concat {A} (size fuel : nat) (l : list A) :
  (0 < size)%nat -> (List.length l <= fuel)%nat ->
  concat (batches_go fuel size l) = l.
Proof.
  intros Hsize. revert l.
  induction fuel as [|fuel IH]; intros l Hl.
  { destruct l; [reflexivity | simpl in Hl; lia]. }
  destruct l as [|x l]; [reflexivity|].
  cbn [batches_go concat]. rewrite IH.
  - apply take_drop.
  - rewrite length_drop. cbn [List.length] in *. lia.
Qed.

Lemma batches_go_sizes {A} (size fuel : nat) (l b : list A) :
  (0 < size)%nat -> b ∈ batches_go fuel size l ->
  (0 < List.length b <= size)%nat.
Proof.
  intros Hsize. revert l.
  induction fuel as [|fuel IH]; intros l Hb.
  { by apply elem_of_nil in Hb. }
  destruct l as [|x l]; [by apply elem_of_nil in Hb|].
  cbn [batches_go] in Hb. apply elem_of_cons in Hb as [->|Hb].
  - rewrite length_take. cbn [List.length]. lia.
  - by apply IH in Hb.
Qed.

(** The slices that the loop of [add_documents] takes are the batches. *)
Lemma slices_are_batches {A} (documents : list A) (step : Z)
    (fuel k : nat) :
  0 < step ->
  map (fun i => py_slice documents i (i + step))
    (range_up fuel (Z.of_nat k) (TextProcessor.py_len documents) step)
  = batches_go fuel (Z.to_nat step) (drop k documents).
Proof.
  intros Hstep. revert k.
  induction fuel as [|fuel IH]; intros k; [reflexivity|].
  cbn [range_up batches_go]. unfold TextProcessor.py_len.
  destruct (Z.ltb_spec (Z.of_nat k) (Z.of_nat (List.length documents)))
    as [Hlt|Hge].
  - destruct (drop k documents) as [|x l] eqn:Hd.
    { apply (f_equal List.length) in Hd. rewrite length_drop in Hd.
      simpl in Hd. lia. }
    cbn [map]. rewrite <- Hd. f_equal.
    + unfold py_slice. rewrite Nat2Z.id. f_equal. lia.
    + replace (Z.of_nat k + step) with (Z.of_nat (k + Z.to_nat step))
        by lia.
      fold (TextProcessor.py_len documents).
      rewrite IH. by rewrite drop_drop.
  - rewrite drop_ge by lia. reflexivity.
Qed.

Lemma filter_is_add_snoc (tr : list event) (ev : event) :
  is_add ev = false ->
  List.filter is_add (tr ++ [ev]) = List.filter is_add tr.
Proof.
  intros H. rewrite List.filter_app. cbn [List.filter]. rewrite H.
  by rewrite app_nil_r.
Qed.

Section AddDocuments.
Context {W : Type} (env : World.collaborators W).

Lemma for_each_map {A B} (g : A -> B) (body : B -> World.M W unit)
    (l : list A) :
  World.for_each l (fun x => body (g x)) = World.for_each (map g l) body.
Proof.
  induction l as [|x l IH]; [reflexivity|].
  cbn [World.for_each map]. by rewrite IH.
Qed.

(** [get_document_count] never raises and sends nothing to the store. *)
Lemma get_document_count_spec (self : VectorStoreManager.t)
    (st : World.state W) :
  exists n st',
    VectorStoreManager.get_document_count env self st = (Ok n, st')
    /\ List.filter is_add (World.trace st')
       = List.filter is_add (World.trace st)
    /\ (VectorStoreManager.vector_store self = None -> n = 0 /\ st' = st)
    /\ (VectorStoreManager.vector_store self <> None ->
        World.trace st' = World.trace st ++ [EvCount]
        /\ World.world st' = snd (World.chroma_count env (World.world st))
        /\ n = match fst (World.chroma_count env (World.world st)) with
               | Ok n => n
               | Raise _ => 0
               end).
Proof.
  unfold VectorStoreManager.get_document_count.
  destruct (VectorStoreManager.vector_store self) as [store|].
  - unfold World.try_except, World.call, World.ret.
    destruct (World.chroma_count env (World.world st)) as [[n|e] w];
      eexists _, _; (split; [reflexivity|]); cbn [World.trace World.world];
      (split; [by apply filter_is_add_snoc|]); (split; [done|]);
      intros _; done.
  - eexists _, _. split; [reflexivity|]. split; [done|].
    split; [done|]. done.
Qed.

(** The loop over the batches, for a manager that has a store: it sends
    the batches in order and stops at the first one that the store
    refuses, with the exception of the refusal. *)
Lemma store_add_loop (self : VectorStoreManager.t)
    (bs : list (list Document)) (st : World.state W) :
  VectorStoreManager.vector_store self <> None ->
  World.for_each bs (VectorStoreManager.store_add env self) st
  = let '(sent, refusal, w) :=
      sent_until_refusal env bs (World.world st) in
    (match refusal with
     | Some e => Raise e
     | None => Ok tt
     end,
     World.mkState w (World.trace st ++ (EvAddDocuments <$> sent))).
Proof.
  intros Hstore. revert st. induction bs as [|b bs IH]; intros st.
  { cbn [World.for_each sent_until_refusal fmap list_fmap].
    rewrite app_nil_r. by destruct st. }
  cbn [World.for_each sent_until_refusal]. unfold World.bind at 1.
  unfold VectorStoreManager.store_add at 1.
  destruct (VectorStoreManager.vector_store self) as [store|]; [|done].
  unfold World.call.
  destruct (World.chroma_add_documents env b (World.world st))
    as [[[]|e] w]; [|reflexivity].
  rewrite IH. cbn [World.world World.trace].
  destruct (sent_until_refusal env bs w) as [[sent refusal] w'].
  by rewrite <- app_assoc.
Qed.

(** The batches sent are the first ones, and all of them when none is
    refused. *)
Lemma sent_until_refusal_prefix (bs : list (list Document)) (w : W) :
  let '(sent, refusal, _) := sent_until_refusal env bs w in
  sent `prefix_of` bs /\ (refusal = None -> sent = bs).
Proof.
  revert w. induction bs as [|b bs IH]; intros w.
  { cbn. split; [done|]. done. }
  cbn [sent_until_refusal].
  destruct (World.chroma_add_documents env b w) as [[[]|e] w1].
  - specialize (IH w1).
    destruct (sent_until_refusal env bs w1) as [[sent refusal] w2].
    destruct IH as [Hp Hall]. split.
    + by apply prefix_cons.
    + intros Hr. by rewrite Hall.
  - split; [|done]. by apply prefix_cons, prefix_nil.
Qed.

(** The loop of [add_documents] runs over the batches. *)
Lemma add_documents_loop (self : VectorStoreManager.t)
    (documents : list Document) (batch_size : Z) (st : World.state W) :
  0 < batch_size ->
  World.for_each
    (range_up (Z.to_nat (TextProcessor.py_len documents - 0)) 0
       (TextProcessor.py_len documents) batch_size)
    (fun i =>
       VectorStoreManager.store_add env self
         (py_slice documents i (i + batch_size))) st
  = World.for_each (batches batch_size documents)
      (VectorStoreManager.store_add env self) st.
Proof.
  intros Hsize.
  rewrite (for_each_map (fun i => py_slice documents i (i + batch_size))
             (VectorStoreManager.store_add env self)).
  rewrite Z.sub_0_r.
  rewrite (slices_are_batches documents batch_size _ 0 Hsize).
  unfold TextProcessor.py_len. by rewrite Nat2Z.id.
Qed.

(** [add_documents] on a manager without a store. *)
Lemma add_documents_without_store (self : VectorStoreManager.t)
    (documents : list Document) (batch_size : Z) (st : World.state W) :
  documents <> [] ->
  0 < batch_size ->
  VectorStoreManager.vector_store self = None ->
  VectorStoreManager.add_documents env self documents batch_size st
  = (Ok (<["success" := RBool false]>
           (<["error" :=
                RStr "'NoneType' object has no attribute 'add_documents'"]>
              ∅)),
     st).
Proof.
  intros Hne Hsize Hstore.
  destruct documents as [|d documents]; [done|].
  unfold VectorStoreManager.add_documents,
    VectorStoreManager.get_document_count.
  rewrite Hstore.
  unfold mbind, World.M_bind, World.bind, World.try_except, World.now,
    World.lift, World.ret, py_range.
  destruct (Z.eqb_spec batch_size 0) as [?|_]; [lia|].
  destruct (Z.ltb_spec 0 batch_size) as [_|?]; [|lia].
  rewrite (add_documents_loop self (d :: documents) batch_size st Hsize).
  destruct (batches batch_size (d :: documents)) as [|b bs] eqn:Hbs.
  { unfold batches in Hbs. cbn in Hbs. discriminate. }
  cbn [World.for_each]. unfold World.bind.
  unfold VectorStoreManager.store_add. rewrite Hstore. reflexivity.
Qed.

(** [add_documents] on a manager with a store. *)
Lemma add_documents_run (self : VectorStoreManager.t)
    (documents : list Document) (batch_size : Z) (st : World.state W) :
  documents <> [] ->
  0 < batch_size ->
  VectorStoreManager.vector_store self <> None ->
  let counted := World.chroma_count env (World.world st) in
  let initial := match fst counted with Ok n => n | Raise _ => 0 end in
  let '(sent, refusal, w) :=
    sent_until_refusal env (batches batch_size documents) (snd counted) in
  match refusal with
  | Some e =>
      VectorStoreManager.add_documents env self documents batch_size st
      = (Ok (<["success" := RBool false]> (<["error" := RStr e]> ∅)),
         World.mkState w
           (World.trace st ++ EvCount :: (EvAddDocuments <$> sent)))
  | None =>
      let recounted := World.chroma_count env w in
      let final := match fst recounted with Ok n => n | Raise _ => 0 end in
      VectorStoreManager.add_documents env self documents batch_size st
      = (Ok (<["success" := RBool true]>
               (<["documents_added" := RInt (final - initial)]>
                  (<["total_documents" := RInt final]>
                     (<["duration_seconds" :=
                          RFloat
                            (World.total_seconds
                               (World.clock env (World.world st))
                               (World.clock env (snd recounted)))]> ∅)))),
         World.mkState (snd recounted)
           (World.trace st
            ++ EvCount :: (EvAddDocuments <$> sent) ++ [EvCount]))
  end.
Proof.
  intros Hne Hsize Hstore. cbn zeta.
  destruct documents as [|d documents]; [done|].
  unfold VectorStoreManager.add_documents,
    VectorStoreManager.get_document_count.
  destruct (VectorStoreManager.vector_store self) as [store|] eqn:Hs;
    [|done].
  unfold mbind, World.M_bind, World.bind, World.try_except, World.now,
    World.lift, World.call, World.ret, py_range.
  destruct (Z.eqb_spec batch_size 0) as [?|_]; [lia|].
  destruct (Z.ltb_spec 0 batch_size) as [_|?]; [|lia].
  assert (forall st0,
            World.for_each
              (range_up
                 (Z.to_nat (TextProcessor.py_len (d :: documents) - 0)) 0
                 (TextProcessor.py_len (d :: documents)) batch_size)
              (fun i =>
                 VectorStoreManager.store_add env self
                   (py_slice (d :: documents) i (i + batch_size))) st0
            = let '(sent, refusal, w) :=
                sent_until_refusal env (batches batch_size (d :: documents))
                  (World.world st0) in
              (match refusal with
               | Some e => Raise e
               | None => Ok tt
               end,
               World.mkState w
                 (World.trace st0 ++ (EvAddDocuments <$> sent)))) as Hfor.
  { intros st0. rewrite (add_documents_loop self _ _ _ Hsize).
    apply store_add_loop. by rewrite Hs. }
  destruct (World.chroma_count env (World.world st)) as [[n0|e0] w0];
    cbn [World.world World.trace fst snd]; rewrite Hfor;
    cbn [World.world World.trace];
    destruct (sent_until_refusal env (batches batch_size (d :: documents))
                w0) as [[sent [e|]] w];
    try (by rewrite <- app_assoc);
    cbn [World.world World.trace];
    destruct (World.chroma_count env w) as [[n1|e1] w1];
    cbn [World.world World.trace fst snd];
    by rewrite <- !app_assoc.
Qed.

(** X10.  For a positive batch size and a list of documents that is not
    empty, [add_documents] cuts the list into batches, the successive
    slices of [batch_size] documents: put end to end they make the list,
    and none is empty or longer than [batch_size].  Without a store it
    calls nothing and returns the failure dict of the missing store.  With
    a store it counts, then sends the batches in order up to the first one
    that the store refuses: when one is refused it stops there and returns
    the failure dict of the refusal; when none is, it has sent them all,
    counts again and returns a success dict with the second count as
    [total_documents] and, as [documents_added], what it exceeds the
    first count by, a count that raises standing for 0. *)
Theorem add_documents_sends_batches (self : VectorStoreManager.t)
    (documents : list Document) (batch_size : Z) (st : World.state W) :
  documents <> [] ->
  0 < batch_size ->
  let bs := batches batch_size documents in
  let counted := World.chroma_count env (World.world st) in
  let initial := match fst counted with Ok n => n | Raise _ => 0 end in
  let '(sent, refusal, w) := sent_until_refusal env bs (snd counted) in
  concat bs = documents
  /\ (forall b, b ∈ bs -> 0 < TextProcessor.py_len b <= batch_size)
  /\ sent `prefix_of` bs
  /\ (VectorStoreManager.vector_store self = None ->
      VectorStoreManager.add_documents env self documents batch_size st
      = (Ok (<["success" := RBool false]>
               (<["error" :=
                    RStr "'NoneType' object has no attribute 'add_documents'"]>
                  ∅)),
         st))
  /\ (VectorStoreManager.vector_store self <> None ->
      match refusal with
      | Some e =>
          VectorStoreManager.add_documents env self documents batch_size st
          = (Ok (<["success" := RBool false]> (<["error" := RStr e]> ∅)),
             World.mkState w
               (World.trace st ++ EvCount :: (EvAddDocuments <$> sent)))
      | None =>
          let recounted := World.chroma_count env w in
          let final :=
            match fst recounted with Ok n => n | Raise _ => 0 end in
          sent = bs
          /\ exists res,
               VectorStoreManager.add_documents env self documents
                 batch_size st
               = (Ok res,
                  World.mkState (snd recounted)
                    (World.trace st
                     ++ EvCount :: (EvAddDocuments <$> bs) ++ [EvCount]))
               /\ res !! "success" = Some (RBool true)
               /\ res !! "documents_added" = Some (RInt (final - initial))
               /\ res !! "total_documents" = Some (RInt final)
               /\ res !! "error" = None
      end).
Proof.
  intros Hne Hsize. cbn zeta.
  pose proof (sent_until_refusal_prefix (batches batch_size documents)
                (snd (World.chroma_count env (World.world st)))) as Hsent.
  pose proof (add_documents_run self documents batch_size st Hne Hsize)
    as Hrun.
  cbn zeta in Hrun.
  destruct (sent_until_refusal env (batches batch_size documents)
              (snd (World.chroma_count env (World.world st))))
    as [[sent refusal] w].
  destruct Hsent as [Hprefix Hall].
  split; [unfold batches; apply batches_go_concat; lia|].
  split.
  { intros b Hb. unfold batches in Hb. apply batches_go_sizes in Hb; [|lia].
    unfold TextProcessor.py_len. lia. }
  split; [exact Hprefix|]. split.
  - intros Hstore. by apply add_documents_without_store.
  - intros Hstore. specialize (Hrun Hstore).
    destruct refusal as [e|]; [exact Hrun|].
    split; [by apply Hall|]. rewrite <- (Hall eq_refl).
    eexists. split; [exact Hrun|].
    split; [by rewrite lookup_insert_eq|].
    split; [by rewrite lookup_insert_ne, lookup_insert_eq by done|].
    split; [by rewrite !lookup_insert_ne, lookup_insert_eq by done|].
    by rewrite !lookup_insert_ne, lookup_empty by done.
Qed.

(** X11.  With the batch size 0, [add_documents] sends nothing to the
    store and reports the failure of [range]. *)
Theorem add_documents_zero_batch_size (self : VectorStoreManager.t)
    (documents : list Document) (st : World.state W) :
  documents <> [] ->
  exists st',
    VectorStoreManager.add_documents env self documents 0 st
    = (Ok (<["success" := RBool false]>
             (<["error" := RStr "range() arg 3 must not be zero"]> ∅)),
       st')
    /\ List.filter is_add (World.trace st')
       = List.filter is_add (World.trace st).
Proof.
  intros Hne. destruct documents as [|d documents]; [done|].
  unfold VectorStoreManager.add_documents.
  unfold mbind, World.M_bind.
  unfold World.bind at 1. unfold World.now at 1.
  unfold World.try_except, World.bind at 1.
  destruct (get_document_count_spec self st) as (n0 & st0 & -> & Htr0 & _).
  unfold World.bind at 1, World.lift, py_range. cbn [Z.eqb].
  unfold World.ret. eexists. split; [reflexivity | exact Htr0].
Qed.

(** X12.  With a negative batch size, [add_documents] sends nothing to the
    store and reports success: the loop runs over an empty range.  The
    dict gives the second count as [total_documents], and as
    [documents_added] what it exceeds the first count by. *)
Theorem add_documents_negative_batch_size (self : VectorStoreManager.t)
    (documents : list Document) (batch_size : Z) (st : World.state W) :
  documents <> [] ->
  batch_size < 0 ->
  exists res st' n0 st0 n1,
    VectorStoreManager.add_documents env self documents batch_size st
    = (Ok res, st')
    /\ VectorStoreManager.get_document_count env self st = (Ok n0, st0)
    /\ VectorStoreManager.get_document_count env self st0 = (Ok n1, st')
    /\ res !! "success" = Some (RBool true)
    /\ res !! "documents_added" = Some (RInt (n1 - n0))
    /\ res !! "total_documents" = Some (RInt n1)
    /\ res !! "error" = None
    /\ List.filter is_add (World.trace st')
       = List.filter is_add (World.trace st).
Proof.
  intros Hne Hsize. destruct documents as [|d documents]; [done|].
  unfold VectorStoreManager.add_documents.
  unfold mbind, World.M_bind.
  unfold World.bind at 1. unfold World.now at 1.
  unfold World.try_except, World.bind at 1.
  destruct (get_document_count_spec self st) as (n0 & st0 & H0 & Htr0 & _).
  rewrite H0.
  unfold World.bind at 1, World.lift, py_range.
  destruct (Z.eqb_spec batch_size 0) as [?|_]; [lia|].
  destruct (Z.ltb_spec 0 batch_size) as [?|_]; [lia|].
  replace (Z.to_nat (0 - TextProcessor.py_len (d :: documents))) with 0%nat
    by (pose proof (py_len_nonneg (d :: documents)); lia).
  cbn [range_down World.for_each].
  unfold World.bind at 1, World.ret at 1.
  unfold World.bind at 1.
  destruct (get_document_count_spec self st0) as (n1 & st1 & H1 & Htr1 & _).
  rewrite H1. unfold World.bind, World.now, World.ret.
  eexists _, _, n0, st0, n1. split; [reflexivity|].
  split; [reflexivity|]. split; [exact H1|].
  split; [by rewrite lookup_insert_eq|].
  split; [by rewrite lookup_insert_ne, lookup_insert_eq by done|].
  split; [by rewrite !lookup_insert_ne, lookup_insert_eq by done|].
  split; [by rewrite !lookup_insert_ne, lookup_empty by done|].
  by rewrite Htr1, Htr0.
Qed.

End AddDocuments.

(** X10 on the two records of the stub, sent one by one. *)
Lemma add_documents_sends_batches_witness :
  [Stub.france; Stub.japan] <> []
  /\ 0 < 1
  /\ exists res st',
       VectorStoreManager.add_documents Stub.env Stub.manager
         [Stub.france; Stub.japan] 1 Stub.online = (Ok res, st')
       /\ World.trace st'
          = [EvCount; EvAddDocuments [Stub.france];
             EvAddDocuments [Stub.japan]; EvCount]
       /\ res !! "success" = Some (RBool true)
       /\ res !! "total_documents" = Some (RInt 4).
Proof.
  split; [done|]. split; [lia|].
  pose proof (add_documents_sends_batches Stub.env Stub.manager
                [Stub.france; Stub.japan] 1 Stub.online ltac:(done)
                ltac:(lia)) as H.
  cbn zeta in H.
  set (run := sent_until_refusal _ _ _) in H.
  vm_compute in run. subst run. cbv beta iota in H.
  destruct H as (_ & _ & _ & _ & H).
  destruct (H ltac:(done)) as (_ & res & Hrun & Hs & _ & Ht & _).
  exists res. eexists. split; [exact Hrun|].
  split; [vm_compute; reflexivity|]. split; [exact Hs|].
  rewrite Ht. vm_compute. reflexivity.
Defined.

(** X11 on one record of the stub. *)
Lemma add_documents_zero_batch_size_witness :
  [Stub.france] <> []
  /\ exists st',
       VectorStoreManager.add_documents Stub.env Stub.manager
         [Stub.france] 0 Stub.online
       = (Ok (<["success" := RBool false]>
                (<["error" := RStr "range() arg 3 must not be zero"]> ∅)),
          st').
Proof.
  split; [done|].
  destruct (add_documents_zero_batch_size Stub.env Stub.manager
              [Stub.france] Stub.online ltac:(done)) as (st' & Hrun & _).
  exists st'. exact Hrun.
Defined.

(** X12 on one record of the stub, with the batch size [-1]. *)
Lemma add_documents_negative_batch_size_witness :
  [Stub.france] <> []
  /\ -1 < 0
  /\ exists res st',
       VectorStoreManager.add_documents Stub.env Stub.manager
         [Stub.france] (-1) Stub.online = (Ok res, st')
       /\ res !! "success" = Some (RBool true)
       /\ List.filter is_add (World.trace st') = [].
Proof.
  split; [done|]. split; [lia|].
  destruct (add_documents_negative_batch_size Stub.env Stub.manager
              [Stub.france] (-1) Stub.online ltac:(done) ltac:(lia))
    as (res & st' & n0 & st0 & n1 & Hrun & _ & _ & Hs & _ & _ & _ & Htr).
  exists res, st'. split; [exact Hrun|]. split; [exact Hs | exact Htr].
Defined.

(** ** [VectorStoreManager.get_statistics] *)

Lemma size_list_to_set_le (l : list value) :
  (size (list_to_set l : gset value) <= List.length l)%nat.
Proof.
  induction l as [|x l IH]; [by rewrite list_to_set_nil, size_empty|].
  rewrite list_to_set_cons, size_union_alt, size_singleton.
  cbn [List.length].
  assert (size (list_to_set l ∖ {[x]} : gset value)
          <= size (list_to_set l : gset value))%nat
    by (apply subseteq_size, subseteq_difference_l; done).
  lia.
Qed.

Section Statistics.
Context {W : Type} (env : World.collaborators W).


(** X14.  When the store counts [n] documents, [n] positive, and answers
    the search for ["test"] among the [min(100, n)] nearest with [sample],
    [get_statistics] reports [n] documents and, as [source_files], the
    set of the [source_file] of the documents of the sample, ['unknown']
    standing for a document without one; [unique_source_files] is the size
    of that set, which is not more than the size of the sample. *)
Theorem get_statistics_sample (self : VectorStoreManager.t)
    (st : World.state W) (n : Z) (w0 w1 : W) (sample : list Document) :
  VectorStoreManager.vector_store self <> None ->
  World.chroma_count env (World.world st) = (Ok n, w0) ->
  0 < n ->
  World.chroma_similarity_search env "test" (Z.min 100 n) None w0
  = (Ok sample, w1) ->
  exists res,
    VectorStoreStatistics.get_statistics env self st
    = (Ok res,
       World.mkState w1
         (World.trace st
          ++ [EvCount; EvSimilaritySearch "test" (Z.min 100 n) None]))
    /\ res !! "total_documents" = Some (SInt n)
    /\ res !! "source_files"
       = Some (SFiles (VectorStoreStatistics.source_files_of sample))
    /\ res !! "unique_source_files"
       = Some (SInt (Z.of_nat
                       (size (VectorStoreStatistics.source_files_of sample))))
    /\ Z.of_nat (size (VectorStoreStatistics.source_files_of sample))
       <= TextProcessor.py_len sample
    /\ (forall v,
          v ∈ VectorStoreStatistics.source_files_of sample
          <-> exists doc,
                doc ∈ sample
                /\ v = default (VStr "unknown")
                         (metadata doc !! "source_file")).
Proof.
  intros Hstore Hcount Hpos Hsearch.
  unfold VectorStoreStatistics.get_statistics,
    VectorStoreManager.get_document_count.
  destruct (VectorStoreManager.vector_store self) as [store|]; [|done].
  unfold mbind, World.M_bind, World.try_except, World.bind, World.call,
    World.ret.
  rewrite Hcount.
  destruct (Z.ltb_spec 0 n) as [_|?]; [|lia].
  cbn [World.world World.trace].
  rewrite Hsearch. eexists. split.
  { rewrite <- app_assoc. reflexivity. }
  split; [by rewrite lookup_insert_eq|].
  split; [by rewrite !lookup_insert_ne, lookup_insert_eq by done|].
  split; [by rewrite lookup_insert_ne, lookup_insert_eq by done|].
  split.
  - unfold VectorStoreStatistics.source_files_of, TextProcessor.py_len.
    apply inj_le. etrans; [apply size_list_to_set_le|].
    by rewrite length_map.
  - intros v. unfold VectorStoreStatistics.source_files_of.
    rewrite elem_of_list_to_set, map_fmap, list_elem_of_fmap.
    unfold RAGChain.get_value. split.
    + intros (doc & -> & Hdoc). exists doc. split; [done|].
      by destruct (metadata doc !! "source_file").
    + intros (doc & Hdoc & ->). exists doc. split; [|done].
      by destruct (metadata doc !! "source_file").
Qed.

(** X15.  When the store is there and its count raises,
    [get_statistics] reports no error: it gives 0 as [total_documents]
    and no file, and it does not search. *)
Theorem get_statistics_count_failure_reads_as_empty
    (self : VectorStoreManager.t) (st : World.state W) (e : exn) (w0 : W) :
  VectorStoreManager.vector_store self <> None ->
  World.chroma_count env (World.world st) = (Raise e, w0) ->
  exists res,
    VectorStoreStatistics.get_statistics env self st
    = (Ok res, World.mkState w0 (World.trace st ++ [EvCount]))
    /\ res !! "error" = None
    /\ res !! "total_documents" = Some (SInt 0)
    /\ res !! "unique_source_files" = Some (SInt 0)
    /\ res !! "source_files" = Some (SFiles ∅).
Proof.
  intros Hstore Hcount.
  unfold VectorStoreStatistics.get_statistics,
    VectorStoreManager.get_document_count.
  destruct (VectorStoreManager.vector_store self) as [store|]; [|done].
  unfold mbind, World.M_bind, World.try_except, World.bind, World.call,
    World.ret.
  rewrite Hcount. cbn [Z.ltb Z.compare]. eexists. split; [reflexivity|].
  split; [by rewrite !lookup_insert_ne, lookup_empty by done|].
  split; [by rewrite lookup_insert_eq|].
  split; [by rewrite lookup_insert_ne, lookup_insert_eq by done|].
  by rewrite !lookup_insert_ne, lookup_insert_eq by done.
Qed.

(** X16.  [get_chain_info] never raises: the number of documents it
    gives is the one of [get_document_count], which is 0 when the manager
    has no store and when the count of the store raises. *)
Theorem get_chain_info_counts (self : RAGChain.t) (st : World.state W) :
  exists res st' n,
    RAGChainInfo.get_chain_info env self st = (Ok res, st')
    /\ VectorStoreManager.get_document_count env
         (RAGChain.vector_store_manager self) st = (Ok n, st')
    /\ res !! "vector_store_documents" = Some (RInt n)
    /\ res !! "model" = Some (RStr (RAGChain.model_name self))
    /\ res !! "k_documents" = Some (RInt (RAGChain.k_documents self))
    /\ (VectorStoreManager.vector_store (RAGChain.vector_store_manager self)
        = None -> n = 0 /\ st' = st)
    /\ (forall e w,
          World.chroma_count env (World.world st) = (Raise e, w) -> n = 0).
Proof.
  unfold RAGChainInfo.get_chain_info.
  unfold mbind, World.M_bind, World.bind.
  destruct (get_document_count_spec env (RAGChain.vector_store_manager self)
              st) as (n & st0 & Hrun & _ & Hnone & Hsome).
  rewrite Hrun. unfold World.ret. eexists _, _, n.
  split; [reflexivity|]. split; [reflexivity|].
  split; [by rewrite !lookup_insert_ne, lookup_insert_eq by done|].
  split; [by rewrite lookup_insert_eq|].
  split; [by rewrite lookup_insert_ne, lookup_insert_eq by done|].
  split; [exact Hnone|].
  intros e w Hcount.
  destruct (VectorStoreManager.vector_store
              (RAGChain.vector_store_manager self)) as [store|] eqn:Hs.
  - destruct Hsome as (_ & _ & ->); [done|]. by rewrite Hcount.
  - by destruct Hnone.
Qed.

End Statistics.

(** X14 on the stub: two documents, one of them without [source_file]. *)
Lemma get_statistics_sample_witness :
  VectorStoreManager.vector_store Stub.manager <> None
  /\ 0 < 2
  /\ exists res st',
       VectorStoreStatistics.get_statistics Stub.env Stub.manager Stub.online
       = (Ok res, st')
       /\ res !! "total_documents" = Some (SInt 2)
       /\ res !! "source_files"
          = Some (SFiles (VectorStoreStatistics.source_files_of
                            [Stub.france; Stub.japan])).
Proof.
  split; [done|]. split; [lia|].
  destruct (get_statistics_sample Stub.env Stub.manager Stub.online 2
              (Stub.tick (World.world Stub.online))
              (Stub.tick (Stub.tick (World.world Stub.online)))
              [Stub.france; Stub.japan]
              ltac:(done) ltac:(reflexivity) ltac:(lia) ltac:(reflexivity))
    as (res & Hrun & Hn & Hf & _).
  exists res. eexists. split; [exact Hrun|]. split; [exact Hn | exact Hf].
Defined.

(** X15 on the stub whose services are unreachable. *)
Lemma get_statistics_count_failure_reads_as_empty_witness :
  VectorStoreManager.vector_store Stub.manager <> None
  /\ exists res st',
       VectorStoreStatistics.get_statistics Stub.env Stub.manager
         Stub.offline = (Ok res, st')
       /\ res !! "error" = None
       /\ res !! "total_documents" = Some (SInt 0).
Proof.
  split; [done|].
  destruct (get_statistics_count_failure_reads_as_empty Stub.env
              Stub.manager Stub.offline "connection refused"
              (World.world Stub.offline) ltac:(done) ltac:(reflexivity))
    as (res & Hrun & He & Hn & _).
  exists res. eexists. split; [exact Hrun|]. split; [exact He | exact Hn].
Defined.

(** ** [RAGChain.query]: the calls it makes *)

Section QueryCalls.
Context {W : Type} (env : World.collaborators W).

(** X17.  With [return_sources], [query] retrieves twice for a question
    that is not blank: the sources of the answer are those of the first
    retrieval, and the prompt sent to the model is rendered from the
    second one. *)
Theorem query_retrieves_twice (self : RAGChain.t) (question : string)
    (st : World.state W) (docs1 docs2 : list Document) (answer : string)
    (w1 w2 w3 : W) :
  RAGChain.blank question = false ->
  World.chroma_similarity_search env question (RAGChain.k_documents self)
    None (World.world st) = (Ok docs1, w1) ->
  World.chroma_similarity_search env question (RAGChain.k_documents self)
    None w1 = (Ok docs2, w2) ->
  World.llm_invoke env
    (RAGChain.render_prompt (RAGChain._format_docs docs2) question) w2
  = (Ok answer, w3) ->
  exists res,
    RAGChain.query env self question true st
    = (Ok res,
       World.mkState w3
         (World.trace st
          ++ [EvSimilaritySearch question (RAGChain.k_documents self) None;
              EvSimilaritySearch question (RAGChain.k_documents self) None;
              EvGenerate
                (RAGChain.render_prompt (RAGChain._format_docs docs2)
                   question)]))
    /\ res !! "success" = Some (RBool true)
    /\ res !! "answer" = Some (RStr answer)
    /\ res !! "sources" = Some (RSources (RAGChain._format_sources docs1))
    /\ res !! "num_sources" = Some (RInt (TextProcessor.py_len docs1)).
Proof.
  intros Hb H1 H2 H3.
  unfold RAGChain.query. rewrite Hb.
  unfold RAGChain.chain_invoke, RAGChain.retriever_invoke.
  unfold mbind, World.M_bind, World.bind, World.try_except, World.now,
    World.call, World.ret.
  rewrite H1. cbn [World.world World.trace].
  rewrite H2. cbn [World.world World.trace].
  rewrite H3. cbn [World.world World.trace].
  eexists. split.
  { rewrite <- !app_assoc. reflexivity. }
  split; [by rewrite !lookup_insert_ne, lookup_insert_eq by done|].
  split; [by rewrite !lookup_insert_ne, lookup_insert_eq by done|].
  split; [by rewrite lookup_insert_ne, lookup_insert_eq by done|].
  rewrite lookup_insert_eq. do 2 f_equal.
  unfold TextProcessor.py_len.
  by rewrite format_sources_spec, length_imap.
Qed.

(** X18.  When the retrieval raises for a question that is not blank,
    [query] does not call the model: it returns the failure dict of the
    question with the description of the exception, with and without
    [return_sources]. *)
Theorem query_retrieval_failure_skips_model (self : RAGChain.t)
    (question : string) (return_sources : bool) (st : World.state W)
    (e : exn) (w1 : W) :
  RAGChain.blank question = false ->
  World.chroma_similarity_search env question (RAGChain.k_documents self)
    None (World.world st) = (Raise e, w1) ->
  RAGChain.query env self question return_sources st
  = (Ok (RAGChain.failure question e),
     World.mkState w1
       (World.trace st
        ++ [EvSimilaritySearch question (RAGChain.k_documents self) None])).
Proof.
  intros Hb H1.
  unfold RAGChain.query. rewrite Hb.
  unfold RAGChain.chain_invoke, RAGChain.retriever_invoke.
  unfold mbind, World.M_bind, World.bind, World.try_except, World.now,
    World.call, World.ret.
  destruct return_sources; rewrite H1; reflexivity.
Qed.

(** ** [RAGChain.batch_query]: the results *)

Lemma map_m_pure {A B} (f : A -> B) (g : A -> World.M W B) (l : list A)
    (st : World.state W) :
  (forall x st, g x st = (Ok (f x), st)) ->
  World.map_m g l st = (Ok (map f l), st).
Proof.
  intros Hg. induction l as [|x l IH]; [reflexivity|].
  cbn [World.map_m map]. unfold World.bind. rewrite Hg, IH. reflexivity.
Qed.

(** The dict of a question that the chain has answered. *)
Lemma batch_result_plain (self : RAGChain.t) (qa : string * string)
    (st : World.state W) :
  RAGChain.batch_result env self false qa st
  = (Ok (<["success" := RBool true]>
           (<["question" := RStr (fst qa)]>
              (<["answer" := RStr (snd qa)]>
                 (<["model" := RStr (RAGChain.model_name self)]> ∅)))),
     st).
Proof. by destruct qa. Qed.

(** X19.  When the batch call of the chain returns [answers] and no
    sources are asked for, [batch_query] pairs the questions with the
    answers in order: it returns as many dicts as the shorter of the two
    lists has elements, each one a success with its question, its answer
    and the model, and no [error]. *)
Theorem batch_query_pairs_answers (self : RAGChain.t)
    (questions answers : list string) (st st1 : World.state W) :
  RAGChain.chain_batch env self questions st = (Ok answers, st1) ->
  exists results,
    RAGChain.batch_query env self questions false st = (Ok results, st1)
    /\ List.length results
       = Nat.min (List.length questions) (List.length answers)
    /\ forall (i : nat) (r : gmap string rvalue),
         results !! i = Some r ->
         exists q a,
           questions !! i = Some q
           /\ answers !! i = Some a
           /\ r !! "success" = Some (RBool true)
           /\ r !! "question" = Some (RStr q)
           /\ r !! "answer" = Some (RStr a)
           /\ r !! "model" = Some (RStr (RAGChain.model_name self))
           /\ r !! "error" = None.
Proof.
  intros H. unfold RAGChain.batch_query, World.try_except.
  unfold mbind, World.M_bind, World.bind at 1. rewrite H.
  rewrite (map_m_pure _ _ _ _ (batch_result_plain self)).
  eexists. split; [reflexivity|]. rewrite map_fmap. split.
  - by rewrite length_fmap, length_combine.
  - intros i r Hr.
    apply list_lookup_fmap_Some in Hr as ([q a] & -> & Hqa).
    assert (questions !! i = Some q /\ answers !! i = Some a) as [Hq Ha].
    { clear H. revert i answers Hqa.
      induction questions as [|q0 questions IH]; intros i answers Hqa;
        [done|].
      destruct answers as [|a0 answers]; [done|].
      destruct i as [|i]; cbn in Hqa |- *.
      - by injection Hqa as -> ->.
      - by apply IH. }
    exists q, a. cbn [fst snd]. split; [done|]. split; [done|].
    split; [by rewrite lookup_insert_eq|].
    split; [by rewrite lookup_insert_ne, lookup_insert_eq by done|].
    split; [by rewrite !lookup_insert_ne, lookup_insert_eq by done|].
    split; [by rewrite !lookup_insert_ne, lookup_insert_eq by done|].
    by rewrite !lookup_insert_ne, lookup_empty by done.
Qed.

(** X20.  When the chain has answered the batch and sources are asked
    for, a retrieval that raises for the first question discards every
    answer: [batch_query] returns the failure dict of each question. *)
Theorem batch_query_source_failure_discards_answers (self : RAGChain.t)
    (question answer : string) (questions answers : list string)
    (st st1 : World.state W) (e : exn) (w2 : W) :
  RAGChain.chain_batch env self (question :: questions) st
  = (Ok (answer :: answers), st1) ->
  World.chroma_similarity_search env question (RAGChain.k_documents self)
    None (World.world st1) = (Raise e, w2) ->
  RAGChain.batch_query env self (question :: questions) true st
  = (Ok (map (fun q => RAGChain.failure q e) (question :: questions)),
     World.mkState w2
       (World.trace st1
        ++ [EvSimilaritySearch question (RAGChain.k_documents self) None])).
Proof.
  intros H Hs. unfold RAGChain.batch_query, World.try_except.
  unfold mbind, World.M_bind, World.bind at 1. rewrite H.
  cbn [combine World.map_m]. unfold World.bind at 1.
  unfold RAGChain.batch_result, RAGChain.retriever_invoke.
  unfold mbind, World.M_bind, World.bind at 1, World.call.
  rewrite Hs. reflexivity.
Qed.

End QueryCalls.

(** X17 on the stub: the store answers both retrievals with its two
    records, and the model with its sentence. *)
Lemma query_retrieves_twice_witness :
  RAGChain.blank "capital?" = false
  /\ exists res st',
       RAGChain.query Stub.env Stub.rag "capital?" true Stub.online
       = (Ok res, st')
       /\ res !! "answer" = Some (RStr "Paris.")
       /\ res !! "num_sources" = Some (RInt 2).
Proof.
  split; [reflexivity|].
  destruct (query_retrieves_twice Stub.env Stub.rag "capital?" Stub.online
              [Stub.france; Stub.japan] [Stub.france; Stub.japan] "Paris."
              (Stub.tick (World.world Stub.online))
              (Stub.tick (Stub.tick (World.world Stub.online)))
              (Stub.tick (Stub.tick (Stub.tick (World.world Stub.online))))
              ltac:(reflexivity) ltac:(reflexivity) ltac:(reflexivity)
              ltac:(reflexivity))
    as (res & Hrun & _ & Ha & _ & Hn).
  exists res. eexists. split; [exact Hrun|]. split; [exact Ha | exact Hn].
Defined.

(** X18 on the stub whose services are unreachable. *)
Lemma query_retrieval_failure_skips_model_witness :
  RAGChain.blank "capital?" = false
  /\ exists st',
       RAGChain.query Stub.env Stub.rag "capital?" true Stub.offline
       = (Ok (RAGChain.failure "capital?" "connection refused"), st').
Proof.
  split; [reflexivity|]. eexists.
  apply (query_retrieval_failure_skips_model Stub.env Stub.rag "capital?"
           true Stub.offline "connection refused"
           (World.world Stub.offline));
    reflexivity.
Defined.

(** X19 on the stub: two questions, two answers. *)
Lemma batch_query_pairs_answers_witness :
  exists results st1,
    RAGChain.chain_batch Stub.env Stub.rag ["a?"; "b?"] Stub.online
    = (Ok ["Paris."; "Paris."], st1)
    /\ RAGChain.batch_query Stub.env Stub.rag ["a?"; "b?"] false Stub.online
       = (Ok results, st1)
    /\ List.length results = 2%nat.
Proof.
  assert (RAGChain.chain_batch Stub.env Stub.rag ["a?"; "b?"] Stub.online
          = (Ok ["Paris."; "Paris."],
             snd (RAGChain.chain_batch Stub.env Stub.rag ["a?"; "b?"]
                    Stub.online))) as H by (vm_compute; reflexivity).
  destruct (batch_query_pairs_answers Stub.env Stub.rag ["a?"; "b?"]
              ["Paris."; "Paris."] Stub.online _ H)
    as (results & Hrun & Hlen & _).
  exists results. eexists. split; [exact H|]. split; [exact Hrun|].
  exact Hlen.
Defined.

(** X20 on a store that answers the retrieval of the chain and fails at
    the retrieval of the sources. *)
Lemma batch_query_source_failure_discards_answers_witness :
  exists st',
    RAGChain.batch_query Stub2.fading Stub.rag ["a?"] true
      (World.mkState 1 [])
    = (Ok [RAGChain.failure "a?" "store closed"], st').
Proof.
  eexists.
  apply (batch_query_source_failure_discards_answers Stub2.fading Stub.rag
           "a?" "Paris." [] [] (World.mkState 1 [])
           (snd (RAGChain.chain_batch Stub2.fading Stub.rag ["a?"]
                   (World.mkState 1 [])))
           "store closed" 0);
    vm_compute; reflexivity.
Defined.

(** ** [VectorStoreManager]: opening and clearing the store *)

(** The outcome of one path through the calls: the result is the one
    computed, and each clause about it holds by computation, the trace
    being read up to the association of its appends. *)
Ltac settle_outcome :=
  eexists _, _, _; (split; [reflexivity|]);
  repeat match goal with |- _ /\ _ => split end;
  try done; try (by intros; eexists);
  try (by rewrite <- ?app_assoc);
  match goal with
  | H : VectorStoreManager.vector_store _ = _ |- _ =>
      rewrite ?H; try done; by intros; eexists
  end.

Section Admin.
Context {W : Type} (env : World2.collaborators W).

(** X21.  [_load_or_create_vector_store] opens the collection of the
    manager and counts it.  When both succeed, the manager holds the store
    that was opened and nothing else is called.  When the opening or the
    count raises, it opens the collection once more and does not count
    again: the manager then holds the store of the second opening, or,
    when the second opening raises, what it held before it, the store of
    the first opening if there is one, and the exception is raised.  So it
    makes one opening or two, and one count at most; when it returns
    without an exception the manager has a store; the names of the manager
    stay as they were. *)
Theorem load_or_create_opens_at_most_twice (self : VectorStoreManager.t)
    (st : World2.state W) :
  let collection := VectorStoreManager.collection_name self in
  let directory := VectorStoreManager.persist_directory self in
  let open := EvOpen collection directory in
  exists self' exc st',
    VectorStoreAdmin._load_or_create_vector_store env self st
    = ((self', exc), st')
    /\ VectorStoreManager.embedding_model_name self'
       = VectorStoreManager.embedding_model_name self
    /\ VectorStoreManager.persist_directory self'
       = VectorStoreManager.persist_directory self
    /\ VectorStoreManager.collection_name self'
       = VectorStoreManager.collection_name self
    /\ (exc = None -> is_Some (VectorStoreManager.vector_store self'))
    /\ match World2.chroma_open env collection directory (World2.world st)
       with
       | (Ok store, w1) =>
           match World.chroma_count (World2.earlier env) w1 with
           | (Ok _, w2) =>
               VectorStoreManager.vector_store self' = Some store
               /\ exc = None
               /\ st' = World2.mkState w2
                          (World2.trace st ++ [open; Earlier EvCount])
           | (Raise _, w2) =>
               match World2.chroma_open env collection directory w2 with
               | (Ok store', w3) =>
                   VectorStoreManager.vector_store self' = Some store'
                   /\ exc = None
                   /\ st' = World2.mkState w3
                              (World2.trace st
                               ++ [open; Earlier EvCount; open])
               | (Raise e, w3) =>
                   VectorStoreManager.vector_store self' = Some store
                   /\ exc = Some e
                   /\ st' = World2.mkState w3
                              (World2.trace st
                               ++ [open; Earlier EvCount; open])
               end
           end
       | (Raise _, w1) =>
           match World2.chroma_open env collection directory w1 with
           | (Ok store', w2) =>
               VectorStoreManager.vector_store self' = Some store'
               /\ exc = None
               /\ st' = World2.mkState w2 (World2.trace st ++ [open; open])
           | (Raise e, w2) =>
               self' = self
               /\ exc = Some e
               /\ st' = World2.mkState w2 (World2.trace st ++ [open; open])
           end
       end.
Proof.
  cbn zeta.
  unfold VectorStoreAdmin._load_or_create_vector_store,
    VectorStoreAdmin.open_store, World2.call.
  destruct (World2.chroma_open env (VectorStoreManager.collection_name self)
              (VectorStoreManager.persist_directory self) (World2.world st))
    as [[store|e] w1]; cbn [World2.world World2.trace].
  - destruct (World.chroma_count (World2.earlier env) w1) as [[n|e] w2];
      cbn [World2.world World2.trace]; [settle_outcome|].
    destruct (World2.chroma_open env
                (VectorStoreManager.collection_name self)
                (VectorStoreManager.persist_directory self) w2)
      as [[store'|e'] w3]; settle_outcome.
  - destruct (World2.chroma_open env
                (VectorStoreManager.collection_name self)
                (VectorStoreManager.persist_directory self) w1)
      as [[store'|e'] w2]; settle_outcome.
Qed.

(** X22.  [clear_vector_store] returns [False] without a call when the
    manager has no store.  With a store it asks the store to delete the
    collection.  When the deletion raises, it returns [False], opens
    nothing and leaves the manager as it was.  When the deletion succeeds,
    it opens the collection and counts it, and opens it once more when the
    opening or the count raises: it returns [True] when the last opening
    succeeds, and the manager then holds the store that this opening
    returned; it returns [False] when the second opening raises, and the
    manager then holds the store of the first opening if there is one,
    and is as it was otherwise.  In every case the manager keeps its names,
    and it has a store after the call if it had one before. *)
Theorem clear_vector_store_outcomes (self : VectorStoreManager.t)
    (st : World2.state W) :
  let collection := VectorStoreManager.collection_name self in
  let directory := VectorStoreManager.persist_directory self in
  let open := EvOpen collection directory in
  exists b self' st',
    VectorStoreAdmin.clear_vector_store env self st = ((b, self'), st')
    /\ VectorStoreManager.embedding_model_name self'
       = VectorStoreManager.embedding_model_name self
    /\ VectorStoreManager.persist_directory self'
       = VectorStoreManager.persist_directory self
    /\ VectorStoreManager.collection_name self'
       = VectorStoreManager.collection_name self
    /\ (is_Some (VectorStoreManager.vector_store self) ->
        is_Some (VectorStoreManager.vector_store self'))
    /\ match VectorStoreManager.vector_store self with
       | None => b = false /\ self' = self /\ st' = st
       | Some _ =>
           match World2.chroma_delete_collection env (World2.world st) with
           | (Raise _, w) =>
               b = false /\ self' = self
               /\ st' = World2.mkState w
                          (World2.trace st ++ [EvDeleteCollection])
           | (Ok _, w) =>
               match World2.chroma_open env collection directory w with
               | (Ok store, w1) =>
                   match World.chroma_count (World2.earlier env) w1 with
                   | (Ok _, w2) =>
                       b = true
                       /\ VectorStoreManager.vector_store self' = Some store
                       /\ st' = World2.mkState w2
                                  (World2.trace st
                                   ++ [EvDeleteCollection; open;
                                       Earlier EvCount])
                   | (Raise _, w2) =>
                       match World2.chroma_open env collection directory w2
                       with
                       | (Ok store', w3) =>
                           b = true
                           /\ VectorStoreManager.vector_store self'
                              = Some store'
                           /\ st' = World2.mkState w3
                                      (World2.trace st
                                       ++ [EvDeleteCollection; open;
                                           Earlier EvCount; open])
                       | (Raise _, w3) =>
                           b = false
                           /\ VectorStoreManager.vector_store self'
                              = Some store
                           /\ st' = World2.mkState w3
                                      (World2.trace st
                                       ++ [EvDeleteCollection; open;
                                           Earlier EvCount; open])
                       end
                   end
               | (Raise _, w1) =>
                   match World2.chroma_open env collection directory w1 with
                   | (Ok store', w2) =>
                       b = true
                       /\ VectorStoreManager.vector_store self'
                          = Some store'
                       /\ st' = World2.mkState w2
                                  (World2.trace st
                                   ++ [EvDeleteCollection; open; open])
                   | (Raise _, w2) =>
                       b = false /\ self' = self
                       /\ st' = World2.mkState w2
                                  (World2.trace st
                                   ++ [EvDeleteCollection; open; open])
                   end
               end
           end
       end.
Proof.
  cbn zeta.
  unfold VectorStoreAdmin.clear_vector_store,
    VectorStoreAdmin._load_or_create_vector_store,
    VectorStoreAdmin.open_store, World2.call.
  destruct (VectorStoreManager.vector_store self) as [held|] eqn:Hheld;
    [|settle_outcome].
  destruct (World2.chroma_delete_collection env (World2.world st))
    as [[[]|e] w]; cbn [World2.world World2.trace]; [|settle_outcome].
  destruct (World2.chroma_open env (VectorStoreManager.collection_name self)
              (VectorStoreManager.persist_directory self) w)
    as [[store|e] w1]; cbn [World2.world World2.trace].
  - destruct (World.chroma_count (World2.earlier env) w1) as [[n|e] w2];
      cbn [World2.world World2.trace]; [settle_outcome|].
    destruct (World2.chroma_open env
                (VectorStoreManager.collection_name self)
                (VectorStoreManager.persist_directory self) w2)
      as [[store'|e'] w3]; settle_outcome.
  - destruct (World2.chroma_open env
                (VectorStoreManager.collection_name self)
                (VectorStoreManager.persist_directory self) w1)
      as [[store'|e'] w2]; settle_outcome.
Qed.

(** ** [VectorStoreManager.similarity_search_with_score] *)

(** X23.  [similarity_search_with_score] never raises.  Without a store
    it returns the empty list and calls nothing; with a store it makes one
    search, with the filter when the filter has a key and without a filter
    otherwise, and returns what the store returns, the empty list standing
    for a search that raises. *)
Theorem similarity_search_with_score_total (self : VectorStoreManager.t)
    (query : string) (k : Z) (filter_dict : option (gmap string value))
    (st : World2.state W) :
  let filter :=
    if VectorStoreManager.dict_truthy filter_dict then filter_dict
    else None in
  let answer :=
    World2.chroma_similarity_search_with_score env query k filter
      (World2.world st) in
  exists results st',
    VectorStoreAdmin.similarity_search_with_score env self query k
      filter_dict st = (Ok results, st')
    /\ (VectorStoreManager.vector_store self = None ->
        results = [] /\ st' = st)
    /\ (VectorStoreManager.vector_store self <> None ->
        st' = World2.mkState (snd answer)
                (World2.trace st
                 ++ [EvSimilaritySearchWithScore query k filter])
        /\ results = match fst answer with
                     | Ok l => l
                     | Raise _ => []
                     end).
Proof.
  cbn zeta. unfold VectorStoreAdmin.similarity_search_with_score.
  destruct (VectorStoreManager.vector_store self) as [store|].
  - unfold mbind, World2.M_bind, World2.try_except, World2.bind,
      World2.call, World2.ret.
    destruct (VectorStoreManager.dict_truthy filter_dict);
      match goal with
      | |- context [World2.chroma_similarity_search_with_score env ?q ?k ?f
                      ?w] =>
          destruct (World2.chroma_similarity_search_with_score env q k f w)
            as [[l|e] w']
      end;
      eexists _, _; (split; [reflexivity|]); (split; [done|]);
      intros _; done.
  - unfold World2.ret. eexists _, _. split; [reflexivity|].
    split; [done|]. done.
Qed.

(** ** [RAGChain.stream_query] *)

(** X24.  [stream_query] rejects the questions that [query] rejects, with
    the same message after ["Error: "] as its one fragment, and without a
    call.  For the other questions it retrieves once with the width of
    the chain; when the retrieval raises it yields the one fragment that
    reports the exception and the model is not called; otherwise it yields
    the fragments of the model for the prompt that [_format_docs] and the
    template make of the retrieved documents, followed, when the model
    stops on an exception, by the fragment that reports it. *)
Theorem stream_query_fragments (self : RAGChain.t) (question : string)
    (st : World2.state W) :
  let search :=
    Earlier (EvSimilaritySearch question (RAGChain.k_documents self) None) in
  let retrieval :=
    World.chroma_similarity_search (World2.earlier env) question
      (RAGChain.k_documents self) None (World2.world st) in
  exists fragments st',
    RAGStream.stream_query env self question st = (fragments, st')
    /\ (RAGChain.blank question = true ->
        st' = st
        /\ exists res,
             RAGChain.query (World2.earlier env) self question true
               (World.mkState (World2.world st) [])
             = (Ok res, World.mkState (World2.world st) [])
             /\ res !! "error" = Some (RStr "Empty question provided")
             /\ fragments = ["Error: " +:+ "Empty question provided"])
    /\ (RAGChain.blank question = false ->
        match fst retrieval with
        | Raise e =>
            fragments = ["Error: " +:+ e]
            /\ st' = World2.mkState (snd retrieval)
                       (World2.trace st ++ [search])
        | Ok docs =>
            let prompt :=
              RAGChain.render_prompt (RAGChain._format_docs docs)
                question in
            let streamed := World2.llm_stream env prompt (snd retrieval) in
            fragments
            = fst (fst streamed)
              ++ match snd (fst streamed) with
                 | Some e => ["Error: " +:+ e]
                 | None => []
                 end
            /\ st' = World2.mkState (snd streamed)
                       (World2.trace st ++ [search; EvStream prompt])
        end).
Proof.
  cbn zeta. unfold RAGStream.stream_query, RAGChain.query.
  destruct (RAGChain.blank question).
  - eexists _, _. split; [reflexivity|]. split; [|done]. intros _.
    split; [done|]. eexists. split; [reflexivity|].
    split; [|reflexivity].
    by rewrite lookup_insert_ne, lookup_insert_eq by done.
  - unfold World2.call.
    destruct (World.chroma_similarity_search (World2.earlier env) question
                (RAGChain.k_documents self) None (World2.world st))
      as [[docs|e] w]; cbn [World2.world World2.trace fst snd].
    + destruct (World2.llm_stream env
                  (RAGChain.render_prompt (RAGChain._format_docs docs)
                     question) w) as [[fragments failure] w'].
      eexists _, _. split; [reflexivity|]. split; [done|]. intros _.
      cbn [fst snd]. split; [reflexivity|].
      by rewrite <- app_assoc.
    + eexists _, _. split; [reflexivity|]. split; [done|]. intros _.
      done.
Qed.

End Admin.

(** ** [DocumentLoader]: validation and loading *)

Lemma supported_formats_elem (suffix : string) :
  suffix ∈ DocumentLoader.SUPPORTED_FORMATS
  <-> suffix = ".pdf" \/ suffix = ".txt" \/ suffix = ".docx".
Proof.
  unfold DocumentLoader.SUPPORTED_FORMATS.
  rewrite !elem_of_union, !elem_of_singleton. tauto.
Qed.

Section Loading.
Variables (py : DocumentLoader.Rendering) (fs : DocumentLoader.FileSystem)
  (ld : DocumentLoader.Loaders).

(** When a loader of the default configuration accepts a file. *)
Lemma validate_file_ok (file_path : DocumentLoader.Path) :
  DocumentLoader._validate_file py fs DocumentLoader.init file_path = Ok tt
  <-> DocumentLoader.path_exists fs file_path = true
      /\ DocumentLoader.is_file fs file_path = true
      /\ DocumentLoader.lower (DocumentLoader.suffix file_path)
         ∈ DocumentLoader.SUPPORTED_FORMATS
      /\ DocumentLoader.st_size fs file_path <= 52428800.
Proof.
  unfold DocumentLoader._validate_file.
  cbn [DocumentLoader.supported_formats DocumentLoader.max_file_size
       DocumentLoader.init].
  change (DocumentLoader.MAX_FILE_SIZE_MB * 1024 * 1024) with 52428800.
  destruct (DocumentLoader.path_exists fs file_path); cbn [negb];
    [|by split; [|intros (? & _)]].
  destruct (DocumentLoader.is_file fs file_path); cbn [negb];
    [|by split; [|intros (_ & ? & _)]].
  destruct (decide (DocumentLoader.lower (DocumentLoader.suffix file_path)
                      ∈ DocumentLoader.SUPPORTED_FORMATS)) as [Hin|Hout].
  - rewrite bool_decide_true by done. cbn [negb].
    destruct (Z.ltb_spec 52428800 (DocumentLoader.st_size fs file_path)).
    + split; [done|]. intros (_ & _ & _ & ?). lia.
    + split; [done|]. done.
  - rewrite bool_decide_false by done. cbn [negb].
    split; [done|]. by intros (_ & _ & ? & _).
Qed.

(** X25.  A loader of the default configuration accepts a file exactly
    when the path exists, is a file, has one of the three suffixes
    [.pdf], [.txt] and [.docx], in any case of the letters, and is not
    larger than 50 times 1024 times 1024 bytes: a file of that very size
    is accepted.  A path that does not exist is reported as not found
    whatever its suffix. *)
Theorem validate_file_accepts (file_path : DocumentLoader.Path) :
  (DocumentLoader._validate_file py fs DocumentLoader.init file_path = Ok tt
   <-> DocumentLoader.path_exists fs file_path = true
       /\ DocumentLoader.is_file fs file_path = true
       /\ DocumentLoader.lower (DocumentLoader.suffix file_path)
          ∈ [".pdf"; ".txt"; ".docx"]
       /\ DocumentLoader.st_size fs file_path <= 50 * 1024 * 1024)
  /\ (DocumentLoader.path_exists fs file_path = false ->
      DocumentLoader._validate_file py fs DocumentLoader.init file_path
      = Raise ("File not found : " +:+ DocumentLoader.as_str file_path)).
Proof.
  split.
  - rewrite validate_file_ok, supported_formats_elem.
    rewrite !elem_of_cons, elem_of_nil.
    change (50 * 1024 * 1024) with 52428800. tauto.
  - intros H. unfold DocumentLoader._validate_file. by rewrite H.
Qed.

(** What [load_document] does with a file that passes the validation. *)
Lemma load_document_dispatch (now : nat -> string)
    (file_path : DocumentLoader.Path) :
  DocumentLoader._validate_file py fs DocumentLoader.init file_path = Ok tt ->
  exists loaded,
    ((DocumentLoader.lower (DocumentLoader.suffix file_path) = ".pdf"
      /\ loaded = DocumentLoader.pdf_loader ld file_path)
     \/ (DocumentLoader.lower (DocumentLoader.suffix file_path) = ".txt"
         /\ loaded = DocumentLoader._load_txt ld file_path)
     \/ (DocumentLoader.lower (DocumentLoader.suffix file_path) = ".docx"
         /\ loaded = DocumentLoader.docx_loader ld file_path))
    /\ DocumentLoader.load_document py fs ld now DocumentLoader.init
         file_path
       = (documents ← loaded;
          Ok (DocumentLoader._enrich_metadata now documents file_path)).
Proof.
  intros Hv. unfold DocumentLoader.load_document. rewrite Hv.
  cbn [mbind outcome_bind Exc.bind].
  apply validate_file_ok in Hv as (_ & _ & Hs & _).
  apply supported_formats_elem in Hs as [Hs|[Hs|Hs]]; rewrite Hs;
    cbn [String.eqb Ascii.eqb Bool.eqb andb]; eexists;
    (split; [|reflexivity]); auto.
Qed.

(** X26.  [load_document] raises what the validation raises; for a file
    that passes the validation it runs the loader of the suffix, the PDF
    loader for [.pdf], the loop over the encodings for [.txt] and the
    DOCX loader for [.docx], and enriches what the loader returns: the
    branch that reports an unsupported format is never taken. *)
Theorem load_document_runs_the_loader_of_the_suffix (now : nat -> string)
    (file_path : DocumentLoader.Path) :
  (forall e,
     DocumentLoader._validate_file py fs DocumentLoader.init file_path
     = Raise e ->
     DocumentLoader.load_document py fs ld now DocumentLoader.init file_path
     = Raise e)
  /\ (DocumentLoader._validate_file py fs DocumentLoader.init file_path
      = Ok tt ->
      exists loaded,
        ((DocumentLoader.lower (DocumentLoader.suffix file_path) = ".pdf"
          /\ loaded = DocumentLoader.pdf_loader ld file_path)
         \/ (DocumentLoader.lower (DocumentLoader.suffix file_path) = ".txt"
             /\ loaded = DocumentLoader._load_txt ld file_path)
         \/ (DocumentLoader.lower (DocumentLoader.suffix file_path)
             = ".docx"
             /\ loaded = DocumentLoader.docx_loader ld file_path))
        /\ DocumentLoader.load_document py fs ld now DocumentLoader.init
             file_path
           = (documents ← loaded;
              Ok (DocumentLoader._enrich_metadata now documents
                    file_path))).
Proof.
  split.
  - intros e He. unfold DocumentLoader.load_document. by rewrite He.
  - apply load_document_dispatch.
Qed.

(** What the documents of a loaded file carry. *)
Lemma load_document_ok (now : nat -> string)
    (file_path : DocumentLoader.Path) (documents : list Document) :
  DocumentLoader.load_document py fs ld now DocumentLoader.init file_path
  = Ok documents ->
  DocumentLoader._validate_file py fs DocumentLoader.init file_path = Ok tt
  /\ forall (i : nat) (d : Document),
       documents !! i = Some d ->
       metadata d !! "source_file"
       = Some (VStr (DocumentLoader.name file_path))
       /\ metadata d !! "chunk_index" = Some (VInt (Z.of_nat i))
       /\ metadata d !! "total_chunks"
          = Some (VInt (TextProcessor.py_len documents))
       /\ metadata d !! "file_type"
          = Some (VStr (DocumentLoader.lower
                          (DocumentLoader.suffix file_path))).
Proof.
  intros H.
  destruct (DocumentLoader._validate_file py fs DocumentLoader.init
              file_path) as [[]|e] eqn:Hv;
    [|unfold DocumentLoader.load_document in H; by rewrite Hv in H].
  split; [done|].
  destruct (load_document_dispatch now file_path Hv) as (loaded & _ & Hl).
  rewrite Hl in H. destruct loaded as [docs|e]; [|done].
  cbn [mbind outcome_bind Exc.bind] in H. injection H as <-.
  unfold DocumentLoader._enrich_metadata. rewrite enrich_from_spec.
  intros i d Hd. apply list_lookup_imap_Some in Hd as (d0 & _ & ->).
  destruct (enrich_document_lookups file_path (TextProcessor.py_len docs)
              (now (0 + i)%nat) (Z.of_nat (0 + i)) d0)
    as (_ & Hi & Ht & Hs & _ & Hf & _).
  rewrite Hs, Hi, Ht, Hf. cbn [Nat.add].
  unfold TextProcessor.py_len. by rewrite length_imap.
Qed.

(** X27.  The documents that [load_document] returns come from a file
    that passes the validation: the path exists, is a file and is not
    larger than the limit.  Each of them has the name of the file as
    [source_file], its position in the list as [chunk_index], the length
    of the list as [total_chunks], and as [file_type] one of [.pdf],
    [.txt] and [.docx], in lower case whatever the case of the suffix. *)
Theorem load_document_metadata (now : nat -> string)
    (file_path : DocumentLoader.Path) (documents : list Document) :
  DocumentLoader.load_document py fs ld now DocumentLoader.init file_path
  = Ok documents ->
  DocumentLoader.path_exists fs file_path = true
  /\ DocumentLoader.is_file fs file_path = true
  /\ DocumentLoader.st_size fs file_path <= 50 * 1024 * 1024
  /\ forall (i : nat) (d : Document),
       documents !! i = Some d ->
       metadata d !! "source_file"
       = Some (VStr (DocumentLoader.name file_path))
       /\ metadata d !! "chunk_index" = Some (VInt (Z.of_nat i))
       /\ metadata d !! "total_chunks"
          = Some (VInt (TextProcessor.py_len documents))
       /\ exists file_type,
            metadata d !! "file_type" = Some (VStr file_type)
            /\ file_type ∈ [".pdf"; ".txt"; ".docx"].
Proof.
  intros H. apply load_document_ok in H as (Hv & Hd).
  apply validate_file_ok in Hv as (He & Hf & Hs & Hsize).
  split; [done|]. split; [done|]. split; [exact Hsize|].
  intros i d Hi. destruct (Hd i d Hi) as (H1 & H2 & H3 & H4).
  split; [done|]. split; [done|]. split; [done|].
  eexists. split; [exact H4|].
  apply supported_formats_elem in Hs.
  rewrite !elem_of_cons, elem_of_nil. tauto.
Qed.





End Loading.

(** X27 on the text file of the stub, whose suffix is in upper case and
    which decodes as Latin-1. *)
Lemma load_document_metadata_witness :
  exists documents d,
    DocumentLoader.load_document Stub2.rendering Stub2.fs Stub2.loaders
      (Stub2.clock Stub2.a_txt) DocumentLoader.init Stub2.a_txt
    = Ok documents
    /\ documents !! 0%nat = Some d
    /\ metadata d !! "source_file" = Some (VStr "a.TXT")
    /\ metadata d !! "file_type" = Some (VStr ".txt").
Proof.
  assert (exists d,
            DocumentLoader.load_document Stub2.rendering Stub2.fs
              Stub2.loaders (Stub2.clock Stub2.a_txt) DocumentLoader.init
              Stub2.a_txt = Ok [d]
            /\ metadata d !! "file_type" = Some (VStr ".txt"))
    as (d & H & Hf) by (eexists; split; vm_compute; reflexivity).
  destruct (load_document_metadata Stub2.rendering Stub2.fs Stub2.loaders
              (Stub2.clock Stub2.a_txt) Stub2.a_txt [d] H)
    as (_ & _ & _ & Hd).
  destruct (Hd 0%nat d eq_refl) as (Hs & _).
  exists [d], d. split; [exact H|]. split; [reflexivity|].
  split; [exact Hs | exact Hf].
Defined.
